(** * check_alltests: the allTests linter of swift-zlib, embedded and verified

    A shallow embedding of [scripts/check_alltests.py].  The script walks
    [Tests/SwiftZlibTests], extracts every [XCTestCase] subclass with a
    line-oriented regular expression, looks for an [allTests] registry and
    for [func test...] declarations, compares the two name lists as sets and
    prints a report; its return value is the exit status of the process.

    Layout:
    - [PyStr]    Python [str] values and the string methods the script calls;
    - [Re]       the fragment of Python's [re] the four patterns are written in;
    - the console, the record [TestClassInfo] and a few sample files;
    - section [Script]: the script, function by function, then its
      properties for any run;
    - section [TwoRuns]: two runs of the script on one tree;
    - the properties on the sample files. *)

From Stdlib Require Import List Arith NArith Bool String Ascii Lia Permutation.
From Stdlib Require Import Sorted.
Import ListNotations.

Set Implicit Arguments.

(* ================================================================== *)
(** ** Python strings *)

(** A Python [str] is a sequence of Unicode code points. *)
Definition char := N.
Definition str := list char.

Module PyStr.

(** A literal of the script, written with Rocq's string notation (ASCII). *)
Definition lit (s : string) : str :=
  List.map N_of_ascii (list_ascii_of_string s).

Fixpoint eqb (a b : str) : bool :=
  match a, b with
  | [], [] => true
  | x :: a', y :: b' => N.eqb x y && eqb a' b'
  | _, _ => false
  end.

(** [s.startswith(p)] *)
Fixpoint startswith (p s : str) : bool :=
  match p, s with
  | [], _ => true
  | x :: p', y :: s' => N.eqb x y && startswith p' s'
  | _ :: _, [] => false
  end.

(** [s.endswith(p)] *)
Definition endswith (p s : str) : bool := startswith (rev p) (rev s).

(** [needle in hay] *)
Fixpoint contains (needle hay : str) : bool :=
  startswith needle hay ||
  match hay with
  | [] => false
  | _ :: t => contains needle t
  end.

(** [x in l] for a list (or set) of strings *)
Definition mem (x : str) (l : list str) : bool := existsb (eqb x) l.

(** [Py_UNICODE_ISSPACE]: the code points [str.strip] removes and [\s]
    matches in a [str] pattern. *)
Definition isspace (c : char) : bool :=
  ((9 <=? c) && (c <=? 13) || (28 <=? c) && (c <=? 32) ||
   (c =? 133) || (c =? 160) || (c =? 5760) ||
   (8192 <=? c) && (c <=? 8202) || (c =? 8232) || (c =? 8233) ||
   (c =? 8239) || (c =? 8287) || (c =? 12288))%N.

Fixpoint lstrip (s : str) : str :=
  match s with
  | c :: t => if isspace c then lstrip t else s
  | [] => []
  end.

Definition rstrip (s : str) : str := rev (lstrip (rev s)).

(** [s.strip()] *)
Definition strip (s : str) : str := lstrip (rstrip s).

(** [s.split(sep)] for a one-character separator: never the empty list. *)
Fixpoint split (sep : char) (s : str) : list str :=
  match s with
  | [] => [[]]
  | c :: t =>
      if N.eqb c sep then [] :: split sep t
      else match split sep t with
           | h :: r => (c :: h) :: r
           | [] => [[c]]
           end
  end.

(** [sep.join(l)] *)
Fixpoint join (sep : str) (l : list str) : str :=
  match l with
  | [] => []
  | [x] => x
  | x :: r => x ++ sep ++ join sep r
  end.

(** [str(n)] for a non-negative integer. *)
Fixpoint digits (d : Decimal.uint) : str :=
  match d with
  | Decimal.Nil => []
  | Decimal.D0 r => 48%N :: digits r
  | Decimal.D1 r => 49%N :: digits r
  | Decimal.D2 r => 50%N :: digits r
  | Decimal.D3 r => 51%N :: digits r
  | Decimal.D4 r => 52%N :: digits r
  | Decimal.D5 r => 53%N :: digits r
  | Decimal.D6 r => 54%N :: digits r
  | Decimal.D7 r => 55%N :: digits r
  | Decimal.D8 r => 56%N :: digits r
  | Decimal.D9 r => 57%N :: digits r
  end.

Definition of_nat (n : nat) : str := digits (Nat.to_uint n).

End PyStr.

Notation "'py' s" := (PyStr.lit s%string) (at level 9, s at level 0, only parsing).

(* ================================================================== *)
(** ** Regular expressions

    The patterns of the script use [^], literals, character classes, a
    greedy [*] and [+] on a single class, an optional non-capturing group,
    one alternation and one capturing group.  [run r st] lists the ways [r]
    can match at [st] in the order a backtracking matcher tries them, so the
    head of the list is the match Python reports. *)

Module Re.

Inductive regex :=
| Bol                         (* ^ *)
| Lit (s : str)               (* a literal run of characters *)
| Cls (p : char -> bool)      (* one character of a class *)
| Star (p : char -> bool)     (* c*  greedy *)
| Plus (p : char -> bool)     (* c+  greedy *)
| Seq (r1 r2 : regex)
| Alt (r1 r2 : regex)         (* r1|r2 *)
| Opt (r : regex)             (* (?:r)? greedy *)
| Grp (r : regex).            (* (r), group 1 *)

(** Where the matcher stands: [pos] characters consumed, [rest] ahead,
    and the text of group 1 if it has been closed. *)
Record mstate := MState { pos : nat; rest : str; grp : option str }.

Definition set_grp (g : str) (st : mstate) : mstate :=
  MState (pos st) (rest st) (Some g).

(** Greedy repetition of a class: the longest run first. *)
Fixpoint star (p : char -> bool) (n : nat) (s : str) (g : option str)
  : list mstate :=
  match s with
  | c :: t => if p c then star p (S n) t g ++ [MState n s g]
              else [MState n s g]
  | [] => [MState n s g]
  end.

Fixpoint run (r : regex) (st : mstate) : list mstate :=
  match r with
  | Bol => if Nat.eqb (pos st) 0 then [st] else []
  | Lit s =>
      if PyStr.startswith s (rest st)
      then [MState (pos st + List.length s) (skipn (List.length s) (rest st))
                   (grp st)]
      else []
  | Cls p =>
      match rest st with
      | c :: t => if p c then [MState (S (pos st)) t (grp st)] else []
      | [] => []
      end
  | Star p => star p (pos st) (rest st) (grp st)
  | Plus p =>
      match rest st with
      | c :: t => if p c then star p (S (pos st)) t (grp st) else []
      | [] => []
      end
  | Seq r1 r2 => flat_map (run r2) (run r1 st)
  | Alt r1 r2 => run r1 st ++ run r2 st
  | Opt r1 => run r1 st ++ [st]
  | Grp r1 =>
      List.map (fun st' => set_grp (firstn (pos st' - pos st) (rest st)) st')
               (run r1 st)
  end.

(** [re.match(r, s)]: a match at the start of [s]. *)
Definition rmatch (r : regex) (s : str) : option mstate :=
  hd_error (run r (MState 0 s None)).

(** [re.search(r, s)]: the leftmost position at which [r] matches. *)
Fixpoint search_from (r : regex) (n : nat) (s : str) : option mstate :=
  match run r (MState n s None) with
  | m :: _ => Some m
  | [] => match s with
          | [] => None
          | _ :: t => search_from r (S n) t
          end
  end.

Definition search (r : regex) (s : str) : option mstate := search_from r 0 s.

(** [m.group(1)] *)
Definition group1 (m : mstate) : option str := grp m.

(** Whether every match of [r] closes group 1. *)
Fixpoint closes_group (r : regex) : bool :=
  match r with
  | Grp _ => true
  | Seq r1 r2 => closes_group r1 || closes_group r2
  | Alt r1 r2 => closes_group r1 && closes_group r2
  | _ => false
  end.

(** Whether [r] has no capturing group. *)
Fixpoint groupless (r : regex) : bool :=
  match r with
  | Grp _ => false
  | Seq r1 r2 => groupless r1 && groupless r2
  | Alt r1 r2 => groupless r1 && groupless r2
  | Opt r1 => groupless r1
  | _ => true
  end.

(** The literals every match of [r] goes through. *)
Fixpoint required (r : regex) : list str :=
  match r with
  | Lit s => [s]
  | Seq r1 r2 => required r1 ++ required r2
  | Grp r1 => required r1
  | _ => []
  end.

(** Character classes. *)
Definition only (a : ascii) : char -> bool := N.eqb (N_of_ascii a).
Definition except (a : ascii) : char -> bool := fun c => negb (only a c).

End Re.

Declare Scope re_scope.
Delimit Scope re_scope with re.
Bind Scope re_scope with Re.regex.
Notation "r1 >> r2" := (Re.Seq r1 r2)
  (at level 61, right associativity) : re_scope.
Notation "'txt' s" := (Re.Lit (PyStr.lit s%string))
  (at level 9, s at level 0, only parsing) : re_scope.

(* ================================================================== *)
(** ** Exceptions and the console *)

(** What [open(file_path, 'r', encoding='utf-8')] and [f.read()] raise on a
    path that is a directory, that may not be read, that names no file (a
    dangling link), or whose bytes are not UTF-8. *)
Inductive read_error :=
| IsADirectoryError
| PermissionError
| FileNotFoundError
| UnicodeDecodeError.

(** The exceptions of a run; the script catches none. *)
Inductive exn :=
| TypeError
| ReadError (e : read_error).

Inductive result (A : Type) :=
| Ok (a : A)
| Raise (e : exn).
Arguments Ok {A} a.
Arguments Raise {A} e.

(** A computation that prints: it extends the list of texts handed to
    [print] so far, and returns or raises.  The console is a standard
    output that takes every text (UTF-8). *)
Definition io (A : Type) : Type := list str -> result A * list str.

Definition ret {A} (a : A) : io A := fun out => (Ok a, out).

Definition bind {A B} (m : io A) (k : A -> io B) : io B :=
  fun out =>
    match m out with
    | (Ok a, out') => k a out'
    | (Raise e, out') => (Raise e, out')
    end.

Definition print (s : str) : io unit := fun out => (Ok tt, out ++ [s]).

Definition lift {A} (r : result A) : io A := fun out => (r, out).

Notation "x <- m ;; k" := (bind m (fun x => k))
  (at level 62, m at next level, right associativity).
Notation "m ;; k" := (bind m (fun _ => k))
  (at level 62, right associativity).

(** The glyphs of the report. *)
Definition cross_mark : str := [0x274C%N].          (* blocking *)
Definition warning_sign : str := [0x26A0%N; 0xFE0F%N]. (* advisory *)
Definition magnifier : str := [0x1F50D%N].
Definition bar_chart : str := [0x1F4CA%N].
Definition file_folder : str := [0x1F4C1%N].
Definition check_mark : str := [0x2705%N].
Definition light_bulb : str := [0x1F4A1%N].
Definition nl : str := [10%N].

(* ================================================================== *)
(** ** The script *)

(** [class TestClassInfo] *)
Record TestClassInfo := {
  filename : str;
  class_name : str;
  line_number : nat;
  has_alltests : bool;
  alltests_signature : option str;
  test_methods : list str;
  alltests_methods : list str
}.

(** [TestClassInfo.__init__] *)
Definition new_TestClassInfo (filename class_name : str) (line_number : nat)
  : TestClassInfo :=
  {| filename := filename; class_name := class_name;
     line_number := line_number;
     has_alltests := false; alltests_signature := None;
     test_methods := []; alltests_methods := [] |}.

(** A file of [Tests/SwiftZlibTests] that can be read: its path and the
    text [open(...).read()] returns for it. *)
Record swift_file := { path : str; content : str }.

(** A path the walk yields: a file that can be read, or a path on which
    [open(...).read()] raises (a directory named [*.swift], a file without
    read permission, a dangling link, bytes that are not UTF-8).  The tree
    is not changed while the script runs: every read of one path in a run
    gives the same text or raises the same exception. *)
Inductive walked :=
| Readable (f : swift_file)
| Unreadable (file_path : str) (e : read_error).

Coercion Readable : swift_file >-> walked.

(** A list of files written where walked paths are expected is a list of
    readable paths: the expected type reaches the elements. *)
#[local] Arguments Some {A} & a.
#[local] Arguments cons {A} & a l.

(** [None] when [Tests/SwiftZlibTests] does not exist; otherwise what
    [test_dir.rglob("*.swift")] yields, in the order of the walk. *)
Definition test_dir := option (list walked).

(** [set(l)], by its elements (each once). *)
Fixpoint pyset (l : list str) : list str :=
  match l with
  | [] => []
  | x :: r => x :: filter (fun y => negb (PyStr.eqb x y)) (pyset r)
  end.

(** [set(a) - set(b)], by its elements. *)
Definition difference (a b : list str) : list str :=
  filter (fun x => negb (PyStr.mem x b)) (pyset a).

(** Truth value of a list or set. *)
Definition truthy {A} (l : list A) : bool :=
  match l with [] => false | _ :: _ => true end.

(** [match.group(1)] of a successful match.  Group 1 takes part in every match
    of the three capturing patterns below ([captures_group1]), so it is a
    string there and never [None]. *)
Definition group1_text (m : Re.mstate) : str :=
  match Re.group1 m with Some g => g | None => [] end.

Definition matched (m : option Re.mstate) : bool :=
  match m with Some _ => true | None => false end.

(** A blocking issue starts with the cross mark, an advisory one with the
    warning sign. *)
Definition is_blocking (issue : str) : bool := PyStr.startswith cross_mark issue.
Definition is_advisory (issue : str) : bool :=
  PyStr.startswith warning_sign issue.

(** The two fields that record the registry agree. *)
Definition registry_consistent (tc : TestClassInfo) : Prop :=
  has_alltests tc = true <-> alltests_signature tc <> None.

(** A difference between two printed texts that lies only in the order of
    the comma-joined names at their end. *)
Definition same_up_to_name_order (t1 t2 : str) : Prop :=
  exists (prefix : str) (names1 names2 : list str),
    Permutation names1 names2 /\
    t1 = prefix ++ PyStr.join (py ", ") names1 /\
    t2 = prefix ++ PyStr.join (py ", ") names2.

(** A record with at most one missing and at most one extra name. *)
Definition single_named (tc : TestClassInfo) : Prop :=
  List.length (difference (test_methods tc) (alltests_methods tc)) <= 1 /\
  List.length (difference (alltests_methods tc) (test_methods tc)) <= 1.

(** The double quote, code point 34. *)
Definition dquote : char := 34%N.

(* ================================================================== *)
(** ** Sample runs and files *)

(** ASCII input never consults the table of [Py_UNICODE_ISALNUM]. *)
Definition ascii_only : char -> bool := fun _ => false.

(** Two iteration orders a run may have: first occurrence first, or last. *)
Definition insertion_order : list str -> list str -> list str := difference.
Definition reverse_order (a b : list str) : list str := rev (difference a b).

Definition quote (s : str) : str := dquote :: s ++ [dquote].

(** A file given by its lines. *)
Definition file_of_lines (p : string) (lines : list str) : swift_file :=
  {| path := PyStr.lit p; content := PyStr.join nl lines |}.

(** The scenario of the specification, written on one line. *)
Definition foo_one_line : swift_file :=
  file_of_lines "Tests/SwiftZlibTests/FooTests.swift"
    [ py "class FooTests : XCTestCase { func testA(){} func testB(){} static var allTests = [("
      ++ quote (py "testA") ++ py ", testA)] }" ].

(** The same declarations, one per line, the registry entry on a line of
    its own. *)
Definition foo_by_lines : swift_file :=
  file_of_lines "Tests/SwiftZlibTests/FooTests.swift"
    [ py "class FooTests : XCTestCase {";
      py "    func testA(){}";
      py "    func testB(){}";
      py "    static var allTests = [";
      py "        (" ++ quote (py "testA") ++ py ", testA)";
      py "    ]";
      py "}" ].

(** The same declarations, one per line, the registry on a single line. *)
Definition foo_registry_on_one_line : swift_file :=
  file_of_lines "Tests/SwiftZlibTests/FooTests.swift"
    [ py "class FooTests : XCTestCase {";
      py "    func testA(){}";
      py "    func testB(){}";
      py "    static var allTests = [(" ++ quote (py "testA") ++ py ", testA)]";
      py "}" ].

(** A complete registry declared with [let]: an advisory issue only. *)
Definition let_registry : swift_file :=
  file_of_lines "Tests/SwiftZlibTests/StyleTests.swift"
    [ py "final class StyleTests: XCTestCase {";
      py "    func testA() {";
      py "    }";
      py "    static let allTests = [";
      py "        (" ++ quote (py "testA") ++ py ", testA),";
      py "    ]";
      py "}" ].

(** Two classes in one file, the first registry a [var], the second a
    [let]. *)
Definition two_registries : swift_file :=
  file_of_lines "Tests/SwiftZlibTests/PairTests.swift"
    [ py "final class ATests: XCTestCase {";
      py "    static var allTests = [";
      py "    ]";
      py "}";
      py "final class BTests: XCTestCase {";
      py "    static let allTests = [";
      py "    ]";
      py "}" ].

(** Lines met in inside-registry mode: a commented-out registry that ends
    with the closing bracket, an entry, the closing line, a later line. *)
Definition old_registry_body : list str :=
  [ py "        // static let allTests = [" ++ quote (py "testOld") ++ py "]";
    py "        (" ++ quote (py "testA") ++ py ", testA)," ].
Definition closing_line : str := py "    ]".
Definition later_lines : list str :=
  [ py "    let name = " ++ quote (py "zlib") ].
Definition inside_with_old_registry : list str :=
  old_registry_body ++ closing_line :: later_lines.

(** A record whose registry lists the test methods in another order. *)
Definition swapped_registry : TestClassInfo :=
  {| filename := py "Tests/SwiftZlibTests/FooTests.swift";
     class_name := py "FooTests"; line_number := 1;
     has_alltests := true;
     alltests_signature := Some (py "static var allTests = [");
     test_methods := [py "testA"; py "testB"];
     alltests_methods := [py "testB"; py "testA"] |}.

(** A single-line registry followed by a second single-line registry. *)
Definition registry_prelude : list str :=
  [ py "final class FooTests: XCTestCase {";
    py "    func testA() {}" ].
Definition single_line_registry : str :=
  py "    static var allTests = [(" ++ quote (py "testA") ++ py ", testA)]".
Definition after_single_line : list str :=
  [ py "    static let allTestsNames = [" ++ quote (py "testA") ++ py "]";
    py "    let name = " ++ quote (py "zlib");
    py "}" ].
Definition one_line_registries : list str :=
  registry_prelude ++ single_line_registry :: after_single_line.

(** A registry that lists none of the two test methods. *)
Definition empty_registry : swift_file :=
  file_of_lines "Tests/SwiftZlibTests/FooTests.swift"
    [ py "class FooTests : XCTestCase {";
      py "    func testA() {}";
      py "    func testB() {}";
      py "    static var allTests = [";
      py "    ]";
      py "}" ].

(** A registry written as a computed property: no [=] on any line. *)
Definition computed_registry : swift_file :=
  file_of_lines "Tests/SwiftZlibTests/GzipTests.swift"
    [ py "final class GzipTests: XCTestCase {";
      py "    func testHeader() {";
      py "    }";
      py "    static var allTests: [(String, (GzipTests) -> () throws -> Void)] {";
      py "        return [(" ++ quote (py "testHeader") ++ py ", testHeader)]";
      py "    }";
      py "}" ].

(** A source file of the test directory that declares no test class. *)
Definition helpers_file : swift_file :=
  file_of_lines "Tests/SwiftZlibTests/Helpers.swift"
    [ py "import XCTest";
      py "";
      py "func makeData() -> [UInt8] {";
      py "    return [1, 2, 3]";
      py "}" ].

(** A tree in which the walk yields, after a file that can be read, a file
    whose bytes are not UTF-8. *)
Definition undecodable_tree : test_dir :=
  Some [ Readable foo_by_lines;
         Unreadable (py "Tests/SwiftZlibTests/Latin1Tests.swift")
                    UnicodeDecodeError;
         Readable helpers_file ].

(** A tree in which the only path the walk yields is a directory whose name
    ends in [.swift]. *)
Definition directory_tree : test_dir :=
  Some [ Unreadable (py "Tests/SwiftZlibTests/Fixtures.swift")
                    IsADirectoryError ].

Section Script.

(** [Py_UNICODE_ISALNUM] above the ASCII range, a table of the interpreter. *)
Variable unicode_alnum : char -> bool.

(** The order in which this run of the interpreter iterates
    [set(a) - set(b)]: string hashes are salted per process, so the order
    belongs to the run, not to the script. *)
Variable set_iter : list str -> list str -> list str.

Hypothesis set_iter_perm :
  forall a b, Permutation (set_iter a b) (difference a b).

(** [\w] *)
Definition isword (c : char) : bool :=
  if (c <? 128)%N
  then ((48 <=? c) && (c <=? 57) || (65 <=? c) && (c <=? 90) ||
        (97 <=? c) && (c <=? 122) || (c =? 95))%N
  else unicode_alnum c.

(** [\s] *)
Definition sp : char -> bool := PyStr.isspace.

(** [r'^\s*(?:final\s+)?class\s+(\w+)\s*:\s*XCTestCase'] *)
Definition class_pattern : Re.regex :=
  (Re.Bol >> Re.Star sp >> Re.Opt (txt "final" >> Re.Plus sp) >>
   txt "class" >> Re.Plus sp >> Re.Grp (Re.Plus isword) >> Re.Star sp >>
   txt ":" >> Re.Star sp >> txt "XCTestCase")%re.

(** [r'^\s*static\s+(?:var|let)\s+allTests\s*[:=]'] and
    [r'^\s*static\s+let\s+allTests\s*:\s*\[\(String,\s*\([^)]+\)\s*->\s*\(\)\s*throws\s*->\s*Void\)\]\s*='] *)
Definition alltests_patterns : list Re.regex :=
  [ (Re.Bol >> Re.Star sp >> txt "static" >> Re.Plus sp >>
     Re.Alt (txt "var") (txt "let") >> Re.Plus sp >> txt "allTests" >>
     Re.Star sp >> Re.Cls (fun c => Re.only ":" c || Re.only "=" c))%re;
    (Re.Bol >> Re.Star sp >> txt "static" >> Re.Plus sp >> txt "let" >>
     Re.Plus sp >> txt "allTests" >> Re.Star sp >> txt ":" >> Re.Star sp >>
     txt "[(String," >> Re.Star sp >> txt "(" >> Re.Plus (Re.except ")") >>
     txt ")" >> Re.Star sp >> txt "->" >> Re.Star sp >> txt "()" >>
     Re.Star sp >> txt "throws" >> Re.Star sp >> txt "->" >> Re.Star sp >>
     txt "Void)]" >> Re.Star sp >> txt "=")%re ].

(** [r'^\s*func\s+(test\w+)\s*\([^)]*\)\s*(?:throws\s+)?(?:async\s+)?(?:throws\s+)?(?:async\s+)?\s*\{'] *)
Definition test_method_pattern : Re.regex :=
  (Re.Bol >> Re.Star sp >> txt "func" >> Re.Plus sp >>
   Re.Grp (txt "test" >> Re.Plus isword) >> Re.Star sp >>
   txt "(" >> Re.Star (Re.except ")") >> txt ")" >> Re.Star sp >>
   Re.Opt (txt "throws" >> Re.Plus sp) >> Re.Opt (txt "async" >> Re.Plus sp) >>
   Re.Opt (txt "throws" >> Re.Plus sp) >> Re.Opt (txt "async" >> Re.Plus sp) >>
   Re.Star sp >> txt "{")%re.

(** The pattern of a quoted literal: a double quote (code 34), one or more
    characters other than it, a double quote; group 1 is the inside. *)
Definition quoted_pattern : Re.regex :=
  (Re.Lit [dquote] >> Re.Grp (Re.Plus (fun c => negb (N.eqb c dquote))) >>
   Re.Lit [dquote])%re.

(** [content.split('\n')] *)
Definition lines_of (f : swift_file) : list str := PyStr.split 10%N (content f).

(** *** [find_test_files] *)
Definition find_test_files (d : test_dir) : io (list walked) :=
  match d with
  | None =>
      print (cross_mark ++ py " Tests/SwiftZlibTests directory not found") ;;
      ret []
  | Some swift_files => ret swift_files
  end.

(** *** [extract_test_classes]: the loop over [enumerate(lines, 1)], on the
    text of a file that was read; the read itself is [read_text] below. *)
Fixpoint extract_loop (file_path : str) (i : nat) (lines : list str)
  (classes : list TestClassInfo) : list TestClassInfo :=
  match lines with
  | [] => classes
  | line :: rest =>
      match Re.rmatch class_pattern (PyStr.strip line) with
      | Some m =>
          extract_loop file_path (S i) rest
            (classes ++ [new_TestClassInfo file_path (group1_text m) i])
      | None => extract_loop file_path (S i) rest classes
      end
  end.

Definition extract_test_classes (f : swift_file) : list TestClassInfo :=
  extract_loop (path f) 1 (lines_of f) [].

(** *** [analyze_test_class] *)

(** A line on which one of [alltests_patterns] is found: the inner loop
    over the patterns, left at the first pattern that matches. *)
Definition is_alltests_decl (line : str) : bool :=
  existsb (fun pattern => matched (Re.search pattern line)) alltests_patterns.

Definition set_alltests (sig : str) (tc : TestClassInfo) : TestClassInfo :=
  {| filename := filename tc; class_name := class_name tc;
     line_number := line_number tc;
     has_alltests := true; alltests_signature := Some sig;
     test_methods := test_methods tc;
     alltests_methods := alltests_methods tc |}.

Definition add_test_method (name : str) (tc : TestClassInfo) : TestClassInfo :=
  {| filename := filename tc; class_name := class_name tc;
     line_number := line_number tc;
     has_alltests := has_alltests tc;
     alltests_signature := alltests_signature tc;
     test_methods := test_methods tc ++ [name];
     alltests_methods := alltests_methods tc |}.

Definition add_alltests_method (name : str) (tc : TestClassInfo)
  : TestClassInfo :=
  {| filename := filename tc; class_name := class_name tc;
     line_number := line_number tc;
     has_alltests := has_alltests tc;
     alltests_signature := alltests_signature tc;
     test_methods := test_methods tc;
     alltests_methods := alltests_methods tc ++ [name] |}.

(** First loop: every line is visited; a matching line sets the flag and
    overwrites the signature. *)
Definition find_alltests (lines : list str) (tc : TestClassInfo)
  : TestClassInfo :=
  fold_left
    (fun tc line =>
       if is_alltests_decl line then set_alltests (PyStr.strip line) tc
       else tc)
    lines tc.

(** Second loop. *)
Definition find_test_methods (lines : list str) (tc : TestClassInfo)
  : TestClassInfo :=
  fold_left
    (fun tc line =>
       match Re.search test_method_pattern line with
       | Some m => add_test_method (group1_text m) tc
       | None => tc
       end)
    lines tc.

(** ['static' in line and 'allTests' in line and '=' in line] *)
Definition opens_alltests (line : str) : bool :=
  PyStr.contains (py "static") line &&
  PyStr.contains (py "allTests") line &&
  PyStr.contains (py "=") line.

(** Third loop, with its flag [in_alltests]; [break] ends the recursion. *)
Fixpoint scan_alltests (in_alltests : bool) (lines : list str)
  (tc : TestClassInfo) : TestClassInfo :=
  match lines with
  | [] => tc
  | line :: rest =>
      if opens_alltests line then scan_alltests true rest tc
      else if in_alltests then
        let tc' :=
          match Re.search quoted_pattern line with
          | Some method_match =>
              add_alltests_method (group1_text method_match) tc
          | None => tc
          end in
        if PyStr.endswith (py "]") (PyStr.strip line) then tc'
        else scan_alltests true rest tc'
      else scan_alltests false rest tc
  end.

Definition analyze_lines (lines : list str) (tc : TestClassInfo)
  : TestClassInfo :=
  let tc1 := find_alltests lines tc in
  let tc2 := find_test_methods lines tc1 in
  if has_alltests tc2 then scan_alltests false lines tc2 else tc2.

Definition analyze_test_class (f : swift_file) (test_class : TestClassInfo)
  : TestClassInfo :=
  analyze_lines (lines_of f) test_class.

(** *** [check_alltests_coverage] *)

Definition missing_alltests_issue : str :=
  cross_mark ++ py " Missing allTests property".

Definition signature_issue : str :=
  warning_sign ++ py "  Consider using 'static var allTests' for consistency".

Definition missing_methods_issue (names : list str) : str :=
  cross_mark ++ py " Missing test methods in allTests: " ++
  PyStr.join (py ", ") names.

Definition extra_methods_issue (names : list str) : str :=
  warning_sign ++ py "  Extra methods in allTests (may be intentional): " ++
  PyStr.join (py ", ") names.

(** ['static var allTests' not in test_class.alltests_signature] raises
    [TypeError] when the signature is [None]. *)
Definition check_alltests_coverage (test_class : TestClassInfo)
  : result (list str) :=
  let issues := [] in
  if negb (has_alltests test_class) then Ok (issues ++ [missing_alltests_issue])
  else
    match alltests_signature test_class with
    | None => Raise TypeError
    | Some signature =>
        let issues :=
          if negb (PyStr.contains (py "static var allTests") signature)
          then issues ++ [signature_issue] else issues in
        let missing_methods :=
          difference (test_methods test_class) (alltests_methods test_class) in
        let extra_methods :=
          difference (alltests_methods test_class) (test_methods test_class) in
        let issues :=
          if truthy missing_methods
          then issues ++
               [missing_methods_issue
                  (set_iter (test_methods test_class)
                            (alltests_methods test_class))]
          else issues in
        let issues :=
          if truthy extra_methods
          then issues ++
               [extra_methods_issue
                  (set_iter (alltests_methods test_class)
                            (test_methods test_class))]
          else issues in
        Ok issues
    end.

(** *** [main] *)

(** [with open(file_path, 'r', encoding='utf-8') as f: content = f.read()],
    the first statement of [extract_test_classes] and of
    [analyze_test_class]. *)
Definition read_text (file_path : walked) : result swift_file :=
  match file_path with
  | Readable f => Ok f
  | Unreadable _ e => Raise (ReadError e)
  end.

(** [extract_test_classes(file_path)], read included. *)
Definition extract_test_classes_at (file_path : walked)
  : result (list TestClassInfo) :=
  match read_text file_path with
  | Ok f => Ok (extract_test_classes f)
  | Raise e => Raise e
  end.

(** [analyze_test_class(file_path, test_class)], read included. *)
Definition analyze_test_class_at (file_path : walked)
  (test_class : TestClassInfo) : result TestClassInfo :=
  match read_text file_path with
  | Ok f => Ok (analyze_test_class f test_class)
  | Raise e => Raise e
  end.

(** The inner loop of [main] over the classes of one file. *)
Fixpoint analyze_each (file_path : walked) (classes : list TestClassInfo)
  (test_classes : list TestClassInfo) : result (list TestClassInfo) :=
  match classes with
  | [] => Ok test_classes
  | test_class :: r =>
      match analyze_test_class_at file_path test_class with
      | Ok analyzed => analyze_each file_path r (test_classes ++ [analyzed])
      | Raise e => Raise e
      end
  end.

(** The outer loop of [main] over the walked paths: the first read that
    raises ends it. *)
Fixpoint collect (test_files : list walked)
  (test_classes : list TestClassInfo) : result (list TestClassInfo) :=
  match test_files with
  | [] => Ok test_classes
  | file_path :: r =>
      match extract_test_classes_at file_path with
      | Ok classes =>
          match analyze_each file_path classes test_classes with
          | Ok test_classes' => collect r test_classes'
          | Raise e => Raise e
          end
      | Raise e => Raise e
      end
  end.

(** What the two loops build from files that can all be read. *)
Definition collect_classes (test_files : list swift_file)
  : list TestClassInfo :=
  flat_map
    (fun file_path =>
       List.map (analyze_test_class file_path) (extract_test_classes file_path))
    test_files.

Fixpoint print_each (issues : list str) : io unit :=
  match issues with
  | [] => ret tt
  | issue :: r => print (py "   " ++ issue) ;; print_each r
  end.

(** The reporting loop; it returns [all_issues]. *)
Fixpoint report (test_classes : list TestClassInfo) (all_issues : list str)
  : io (list str) :=
  match test_classes with
  | [] => ret all_issues
  | test_class :: r =>
      issues <- lift (check_alltests_coverage test_class) ;;
      if truthy issues then
        print (nl ++ file_folder ++ py " " ++ filename test_class ++ py ":" ++
               PyStr.of_nat (line_number test_class) ++ py " - " ++
               class_name test_class) ;;
        print_each issues ;;
        report r (all_issues ++ issues)
      else report r all_issues
  end.

Definition main (d : test_dir) : io nat :=
  print (magnifier ++ py " Checking allTests properties in test files...") ;;
  test_files <- find_test_files d ;;
  if negb (truthy test_files) then
    print (cross_mark ++ py " No test files found") ;;
    ret 1
  else
    test_classes <- lift (collect test_files []) ;;
    print (nl ++ bar_chart ++ py " Found " ++
           PyStr.of_nat (List.length test_classes) ++ py " test classes in " ++
           PyStr.of_nat (List.length test_files) ++ py " files") ;;
    all_issues <- report test_classes [] ;;
    if negb (truthy all_issues) then
      print (nl ++ check_mark ++
             py " All test classes have proper allTests properties!") ;;
      ret 0
    else
      print (nl ++ cross_mark ++ py " Found " ++
             PyStr.of_nat (List.length all_issues) ++
             py " issues with allTests properties") ;;
      print (nl ++ light_bulb ++ py " Recommendations:") ;;
      print (py "   - Add 'static var allTests = [...]' to missing classes") ;;
      print (py "   - Include all test methods in allTests array") ;;
      print (py "   - Use consistent signature: static var allTests = [...]") ;;
      ret 1.

(** [sys.exit(main())]: the returned integer, or 1 after an uncaught
    exception. *)
Definition exit_status (d : test_dir) : nat :=
  match fst (main d []) with
  | Ok code => code
  | Raise _ => 1
  end.

(** What the run printed. *)
Definition console (d : test_dir) : list str := snd (main d []).

(** The issues of the run, as the reporting loop accumulates them. *)
Definition all_issues_of (d : test_dir) : result (list str) :=
  match d with
  | None => Ok []
  | Some test_files =>
      match collect test_files [] with
      | Ok test_classes => fst (report test_classes [] [])
      | Raise e => Raise e
      end
  end.

(** The records the run hands to the reporting loop. *)
Definition records_of (d : test_dir) : list TestClassInfo :=
  match d with
  | None => []
  | Some test_files =>
      match collect test_files [] with
      | Ok test_classes => test_classes
      | Raise _ => []
      end
  end.

(** The texts of the walked paths, or the exception of the first path
    that cannot be read. *)
Fixpoint read_all (test_files : list walked) : result (list swift_file) :=
  match test_files with
  | [] => Ok []
  | file_path :: r =>
      match read_text file_path with
      | Ok f =>
          match read_all r with
          | Ok fs => Ok (f :: fs)
          | Raise e => Raise e
          end
      | Raise e => Raise e
      end
  end.

(** What one line inside the registry gives to [alltests_methods]: the first
    quoted literal on it, if it has one. *)
Definition quoted_name (line : str) : list str :=
  match Re.search quoted_pattern line with
  | Some method_match => [group1_text method_match]
  | None => []
  end.

(** [line.strip().endswith(']')] *)
Definition ends_array (line : str) : bool :=
  PyStr.endswith (py "]") (PyStr.strip line).

(** What a line met in inside-registry mode adds to [alltests_methods]: a
    line that itself opens a registry is passed over, any other line gives
    its first quoted literal. *)
Definition contribution (line : str) : list str :=
  if opens_alltests line then [] else quoted_name line.

(** A line that ends the scan: it is not passed over and its trimmed text
    ends with the closing bracket. *)
Definition closes_alltests (line : str) : bool :=
  negb (opens_alltests line) && ends_array line.

(** The lines up to and including the first that closes the registry. *)
Fixpoint upto_closing (lines : list str) : list str :=
  match lines with
  | [] => []
  | line :: rest =>
      if closes_alltests line then [line] else line :: upto_closing rest
  end.

(** The inside-registry scan as the specification words it: every line
    gives its first quoted literal, and the first line whose trimmed text
    ends with the closing bracket stops the scan. *)
Fixpoint spec_inside (lines : list str) : list str :=
  match lines with
  | [] => []
  | line :: rest =>
      quoted_name line ++ (if ends_array line then [] else spec_inside rest)
  end.

(** The issues of a record, none when the check raises. *)
Definition issues_of (tc : TestClassInfo) : list str :=
  match check_alltests_coverage tc with
  | Ok issues => issues
  | Raise _ => []
  end.

(** The lines the reporting loop prints for a record. *)
Definition report_block (tc : TestClassInfo) : list str :=
  if truthy (issues_of tc) then
    (nl ++ file_folder ++ py " " ++ filename tc ++ py ":" ++
     PyStr.of_nat (line_number tc) ++ py " - " ++ class_name tc)
    :: List.map (fun issue => py "   " ++ issue) (issues_of tc)
  else [].

(** What one line gives to [test_methods]. *)
Definition test_name (line : str) : list str :=
  match Re.search test_method_pattern line with
  | Some m => [group1_text m]
  | None => []
  end.

(** The names the registry scan of a file finds, starting outside the
    registry. *)
Definition registry_names (lines : list str) : list str :=
  alltests_methods (scan_alltests false lines (new_TestClassInfo [] [] 0)).

(** The texts [main] prints before the per-class blocks. *)
Definition opening_lines (n_classes n_files : nat) : list str :=
  [ magnifier ++ py " Checking allTests properties in test files...";
    nl ++ bar_chart ++ py " Found " ++ PyStr.of_nat n_classes ++
    py " test classes in " ++ PyStr.of_nat n_files ++ py " files" ].

(** The texts [main] prints after them. *)
Definition summary_lines (all_issues : list str) : list str :=
  if truthy all_issues then
    [ nl ++ cross_mark ++ py " Found " ++
      PyStr.of_nat (List.length all_issues) ++
      py " issues with allTests properties";
      nl ++ light_bulb ++ py " Recommendations:";
      py "   - Add 'static var allTests = [...]' to missing classes";
      py "   - Include all test methods in allTests array";
      py "   - Use consistent signature: static var allTests = [...]" ]
  else
    [ nl ++ check_mark ++
      py " All test classes have proper allTests properties!" ].

(** A record the checker has nothing to say about. *)
Definition clean (tc : TestClassInfo) : Prop :=
  has_alltests tc = true /\
  (exists sig, alltests_signature tc = Some sig /\
               PyStr.contains (py "static var allTests") sig = true) /\
  (forall x, In x (test_methods tc) <-> In x (alltests_methods tc)).

(* ================================================================== *)
(** ** Strings and sets *)

Lemma eqb_eq (a b : str) : PyStr.eqb a b = true <-> a = b.
Proof.
  revert b; induction a as [|x a IH]; intros [|y b]; simpl;
    try (split; [discriminate | congruence]); try tauto.
  rewrite andb_true_iff, N.eqb_eq, IH. split.
  - intros [-> ->]; reflexivity.
  - intros E; injection E; auto.
Qed.

Lemma mem_In (x : str) (l : list str) : PyStr.mem x l = true <-> In x l.
Proof.
  unfold PyStr.mem. rewrite existsb_exists. split.
  - intros (y & Hy & E). apply eqb_eq in E. subst; assumption.
  - intros H. exists x. split; [assumption | apply eqb_eq; reflexivity].
Qed.

Lemma pyset_In (x : str) (l : list str) : In x (pyset l) <-> In x l.
Proof.
  induction l as [|y l IH]; simpl; [tauto|].
  rewrite filter_In, IH, negb_true_iff.
  destruct (PyStr.eqb y x) eqn:E.
  - apply eqb_eq in E. subst. split; [intros [?|[? ?]]; auto | auto].
  - split; [intros [?|[? _]]; auto | intros [?|?]; auto].
Qed.

Lemma difference_In (x : str) (a b : list str) :
  In x (difference a b) <-> In x a /\ ~ In x b.
Proof.
  unfold difference. rewrite filter_In, pyset_In, negb_true_iff.
  rewrite <- (mem_In x b). destruct (PyStr.mem x b); intuition congruence.
Qed.

Lemma difference_nil (a b : list str) :
  (forall x, In x a -> In x b) -> difference a b = [].
Proof.
  intros H. destruct (difference a b) as [|x r] eqn:E; [reflexivity|].
  assert (Hx : In x (difference a b)) by (rewrite E; left; reflexivity).
  apply difference_In in Hx. destruct Hx as [Ha Hb]. elim Hb; auto.
Qed.

Lemma truthy_false {A} (l : list A) : truthy l = false <-> l = [].
Proof. destruct l; simpl; split; congruence. Qed.

Lemma truthy_app {A} (l1 l2 : list A) :
  truthy (l1 ++ l2) = truthy l1 || truthy l2.
Proof. destruct l1; simpl; reflexivity. Qed.

(* ================================================================== *)
(** ** The analyzer keeps the registry fields together *)

Lemma find_test_methods_fields (lines : list str) (tc : TestClassInfo) :
  has_alltests (find_test_methods lines tc) = has_alltests tc /\
  alltests_signature (find_test_methods lines tc) = alltests_signature tc /\
  alltests_methods (find_test_methods lines tc) = alltests_methods tc.
Proof.
  unfold find_test_methods. revert tc.
  induction lines as [|l lines IH]; intros tc; simpl; [auto|].
  destruct (Re.search test_method_pattern l) as [m|]; [|apply IH].
  exact (IH (add_test_method (group1_text m) tc)).
Qed.

Lemma scan_alltests_fields (lines : list str) :
  forall (b : bool) (tc : TestClassInfo),
    has_alltests (scan_alltests b lines tc) = has_alltests tc /\
    alltests_signature (scan_alltests b lines tc) = alltests_signature tc /\
    test_methods (scan_alltests b lines tc) = test_methods tc.
Proof.
  induction lines as [|l lines IH]; intros b tc; simpl; [auto|].
  destruct (opens_alltests l); [apply IH|].
  destruct b; [|apply IH].
  destruct (Re.search quoted_pattern l);
    destruct (PyStr.endswith _ _); simpl; auto;
    match goal with |- context [scan_alltests true lines ?t] =>
      destruct (IH true t) as (-> & -> & ->); simpl; auto end.
Qed.

Lemma analyze_lines_fields (lines : list str) (tc : TestClassInfo) :
  has_alltests (analyze_lines lines tc) = has_alltests (find_alltests lines tc) /\
  alltests_signature (analyze_lines lines tc) =
    alltests_signature (find_alltests lines tc).
Proof.
  unfold analyze_lines.
  destruct (find_test_methods_fields lines (find_alltests lines tc))
    as (Hh & Hs & _).
  destruct (has_alltests (find_test_methods lines (find_alltests lines tc)))
    eqn:E.
  - destruct (scan_alltests_fields lines false
                (find_test_methods lines (find_alltests lines tc)))
      as (-> & -> & _).
    rewrite E. split; congruence.
  - rewrite E. split; congruence.
Qed.

Lemma find_last {A} (p : A -> bool) (l : list A) (x : A) :
  find p (l ++ [x]) =
  match find p l with
  | Some y => Some y
  | None => if p x then Some x else None
  end.
Proof.
  induction l as [|y l IH]; simpl; [reflexivity|].
  destruct (p y); [reflexivity | exact IH].
Qed.

Lemma existsb_find_rev {A} (p : A -> bool) (l : list A) :
  existsb p l = true <-> find p (rev l) <> None.
Proof.
  split.
  - intros H. apply existsb_exists in H. destruct H as (x & Hin & Hp).
    destruct (find p (rev l)) eqn:E; [discriminate|].
    apply in_rev in Hin. rewrite (find_none _ _ E x Hin) in Hp. discriminate.
  - destruct (find p (rev l)) as [y|] eqn:E; [intros _ | congruence].
    apply find_some in E. destruct E as [Hin Hp].
    apply existsb_exists. exists y. split; [apply in_rev; exact Hin | exact Hp].
Qed.

(** The first loop seen from the end of the file: the last line that
    matches decides; the fields set by [__init__] show only when no line
    matches. *)
Lemma find_alltests_fields (lines : list str) :
  forall tc : TestClassInfo,
    has_alltests (find_alltests lines tc) =
      has_alltests tc || existsb is_alltests_decl lines /\
    alltests_signature (find_alltests lines tc) =
      match find is_alltests_decl (rev lines) with
      | Some line => Some (PyStr.strip line)
      | None => alltests_signature tc
      end /\
    test_methods (find_alltests lines tc) = test_methods tc /\
    alltests_methods (find_alltests lines tc) = alltests_methods tc.
Proof.
  unfold find_alltests.
  induction lines as [|l lines IH]; intros tc; simpl.
  - rewrite orb_false_r. auto.
  - rewrite find_last.
    match goal with |- context [fold_left ?f lines ?t] =>
      destruct (IH t) as (Hh & Hs & Ht & Ha) end.
    rewrite Hh, Hs, Ht, Ha.
    destruct (find is_alltests_decl (rev lines));
      destruct (is_alltests_decl l); simpl;
      rewrite ?orb_true_r, ?orb_false_r; auto.
Qed.

Lemma analyze_preserves_consistent (lines : list str) (tc : TestClassInfo) :
  registry_consistent tc -> registry_consistent (analyze_lines lines tc).
Proof.
  unfold registry_consistent. intros H.
  destruct (analyze_lines_fields lines tc) as (-> & ->).
  destruct (find_alltests_fields lines tc) as (-> & -> & _).
  pose proof (existsb_find_rev is_alltests_decl lines) as E.
  destruct (find is_alltests_decl (rev lines)).
  - rewrite (proj2 E) by discriminate. rewrite orb_true_r.
    split; [discriminate | reflexivity].
  - destruct (existsb is_alltests_decl lines).
    + destruct (proj1 E eq_refl). reflexivity.
    + rewrite orb_false_r. exact H.
Qed.

Lemma new_consistent (fn cn : str) (ln : nat) :
  registry_consistent (new_TestClassInfo fn cn ln).
Proof. unfold registry_consistent; simpl. split; congruence. Qed.

Lemma extract_loop_new (fp : str) (lines : list str) :
  forall (i : nat) (classes : list TestClassInfo),
    Forall registry_consistent classes ->
    Forall registry_consistent (extract_loop fp i lines classes).
Proof.
  induction lines as [|l lines IH]; intros i classes H; simpl; [assumption|].
  destruct (Re.rmatch class_pattern (PyStr.strip l)); apply IH; [|assumption].
  apply Forall_app. split; [assumption|].
  constructor; [apply new_consistent | constructor].
Qed.

Lemma collect_classes_consistent (files : list swift_file) :
  Forall registry_consistent (collect_classes files).
Proof.
  unfold collect_classes. apply Forall_flat_map. apply Forall_forall.
  intros f _. apply Forall_map.
  eapply Forall_impl; [| apply extract_loop_new; constructor].
  intros tc H. apply analyze_preserves_consistent. exact H.
Qed.

(* ================================================================== *)
(** ** The coverage check and the report *)

Lemma check_ok (tc : TestClassInfo) :
  registry_consistent tc ->
  check_alltests_coverage tc = Ok (issues_of tc).
Proof.
  unfold registry_consistent, issues_of, check_alltests_coverage.
  intros [H _].
  destruct (has_alltests tc); simpl; [|reflexivity].
  destruct (alltests_signature tc); [reflexivity|].
  elim (H eq_refl). reflexivity.
Qed.

Lemma print_each_run (issues out : list str) :
  print_each issues out =
  (Ok tt, out ++ List.map (fun issue => py "   " ++ issue) issues).
Proof.
  revert out. induction issues as [|i issues IH]; intros out.
  - simpl. unfold ret. rewrite app_nil_r. reflexivity.
  - cbn [print_each List.map]. unfold bind, print. rewrite IH.
    rewrite <- app_assoc. reflexivity.
Qed.

Lemma report_run (tcs : list TestClassInfo) :
  forall acc out : list str,
    Forall registry_consistent tcs ->
    report tcs acc out =
    (Ok (acc ++ flat_map issues_of tcs), out ++ flat_map report_block tcs).
Proof.
  induction tcs as [|tc tcs IH]; intros acc out H.
  - simpl. unfold ret. rewrite !app_nil_r. reflexivity.
  - inversion H as [|? ? Htc Htcs]; subst.
    cbn [report flat_map]. unfold bind at 1. unfold lift.
    rewrite (check_ok Htc). unfold report_block.
    destruct (truthy (issues_of tc)) eqn:E.
    + unfold bind, print. rewrite print_each_run, (IH _ _ Htcs).
      rewrite <- !app_assoc. reflexivity.
    + apply truthy_false in E. rewrite E. simpl.
      apply IH. exact Htcs.
Qed.

(** Reading the walked paths *)

Lemma read_all_map (fs : list swift_file) :
  read_all (List.map Readable fs) = Ok fs.
Proof. induction fs as [|f fs IH]; simpl; [|rewrite IH]; reflexivity. Qed.

Lemma read_all_ok (ws : list walked) :
  forall fs, read_all ws = Ok fs -> ws = List.map Readable fs.
Proof.
  induction ws as [|[f|p e] ws IH]; intros fs; simpl.
  - intros [= <-]. reflexivity.
  - destruct (read_all ws) as [gs|x]; [|discriminate].
    intros [= <-]. simpl. rewrite <- (IH gs eq_refl). reflexivity.
  - discriminate.
Qed.


Lemma read_all_raise (ws : list walked) :
  forall x, read_all ws = Raise x ->
  exists fs p e rest,
    ws = List.map Readable fs ++ Unreadable p e :: rest /\ x = ReadError e.
Proof.
  induction ws as [|[f|p e] ws IH]; intros x; simpl.
  - discriminate.
  - destruct (read_all ws) as [gs|y]; [discriminate|].
    intros [= <-]. destruct (IH y eq_refl) as (fs & p & e & rest & -> & ->).
    exists (f :: fs), p, e, rest. auto.
  - intros [= <-]. exists [], p, e, ws. auto.
Qed.

Lemma readable_map (fs : list swift_file) (p : str) (e : read_error) :
  ~ In (Unreadable p e) (List.map Readable fs).
Proof.
  intros H. apply in_map_iff in H. destruct H as (f & H & _). discriminate.
Qed.

Lemma read_all_unreadable (ws : list walked) (p : str) (e : read_error) :
  In (Unreadable p e) ws -> exists x, read_all ws = Raise x.
Proof.
  intros H. destruct (read_all ws) as [fs|x] eqn:E; [|eauto].
  apply read_all_ok in E. subst. elim (readable_map _ _ _ H).
Qed.

Lemma read_all_readable (ws : list walked) :
  (forall p e, ~ In (Unreadable p e) ws) -> exists fs, read_all ws = Ok fs.
Proof.
  intros H. destruct (read_all ws) as [fs|x] eqn:E; [eauto|].
  apply read_all_raise in E. destruct E as (fs & p & e & rest & -> & _).
  elim (H p e). apply in_or_app. right. left. reflexivity.
Qed.

Lemma analyze_each_readable (f : swift_file) (classes : list TestClassInfo) :
  forall acc : list TestClassInfo,
    analyze_each (Readable f) classes acc =
    Ok (acc ++ List.map (analyze_test_class f) classes).
Proof.
  induction classes as [|tc classes IH]; intros acc; simpl.
  - rewrite app_nil_r. reflexivity.
  - rewrite IH, <- app_assoc. reflexivity.
Qed.

(** The loops of [main] end with the exception of the first path that
    cannot be read; when every path can be read they build the records of
    the files, file by file. *)
Lemma collect_eq (ws : list walked) :
  forall acc : list TestClassInfo,
    collect ws acc =
    match read_all ws with
    | Ok fs => Ok (acc ++ collect_classes fs)
    | Raise e => Raise e
    end.
Proof.
  induction ws as [|[f|p e] ws IH]; intros acc.
  - simpl. rewrite app_nil_r. reflexivity.
  - cbn [collect read_all read_text extract_test_classes_at].
    rewrite analyze_each_readable, IH.
    destruct (read_all ws) as [fs|x]; [|reflexivity].
    unfold collect_classes. cbn [flat_map]. rewrite app_assoc. reflexivity.
  - reflexivity.
Qed.

Lemma records_of_eq (d : test_dir) :
  records_of d =
  match d with
  | None => []
  | Some test_files =>
      match read_all test_files with
      | Ok fs => collect_classes fs
      | Raise _ => []
      end
  end.
Proof.
  destruct d as [ws|]; [|reflexivity]. unfold records_of.
  rewrite collect_eq. destruct (read_all ws); reflexivity.
Qed.

Lemma records_of_consistent (d : test_dir) :
  Forall registry_consistent (records_of d).
Proof.
  rewrite records_of_eq. destruct d as [ws|]; [|constructor].
  destruct (read_all ws); [apply collect_classes_consistent | constructor].
Qed.

Lemma all_issues_of_eq (d : test_dir) :
  all_issues_of d =
  match d with
  | None => Ok []
  | Some test_files =>
      match read_all test_files with
      | Ok fs => Ok (flat_map issues_of (collect_classes fs))
      | Raise e => Raise e
      end
  end.
Proof.
  destruct d as [ws|]; [|reflexivity]. unfold all_issues_of.
  rewrite collect_eq. destruct (read_all ws) as [fs|x]; [|reflexivity].
  cbn [app]. rewrite report_run by apply collect_classes_consistent.
  reflexivity.
Qed.

(** What [main] gives: when every walked path can be read the records
    come out of the analyzer with their registry fields in agreement, so
    the check never raises and [main] returns; otherwise the exception of
    the first read that fails goes through. *)
Lemma main_result (d : test_dir) :
  fst (main d []) =
  match d with
  | None => Ok 1
  | Some test_files =>
      if truthy test_files
      then match read_all test_files with
           | Ok fs =>
               Ok (if truthy (flat_map issues_of (collect_classes fs))
                   then 1 else 0)
           | Raise e => Raise e
           end
      else Ok 1
  end.
Proof.
  unfold main, find_test_files.
  destruct d as [files|]; [|reflexivity].
  unfold bind, print, ret, lift. destruct files as [|w ws]; [reflexivity|].
  cbn [truthy negb]. rewrite collect_eq.
  destruct (read_all (w :: ws)) as [fs|x]; [|reflexivity].
  cbn [app]. rewrite report_run by apply collect_classes_consistent.
  cbn [app].
  destruct (truthy (flat_map issues_of (collect_classes fs))); reflexivity.
Qed.

Lemma exit_status_eq (d : test_dir) :
  exit_status d =
  match d with
  | None => 1
  | Some test_files =>
      if truthy test_files
      then match read_all test_files with
           | Ok fs =>
               if truthy (flat_map issues_of (collect_classes fs))
               then 1 else 0
           | Raise _ => 1
           end
      else 1
  end.
Proof.
  unfold exit_status. rewrite main_result.
  destruct d as [ws|]; [|reflexivity].
  destruct (truthy ws); [|reflexivity]. destruct (read_all ws); reflexivity.
Qed.

Lemma console_some (w : walked) (ws : list walked) :
  console (Some (w :: ws)) =
  match read_all (w :: ws) with
  | Ok fs =>
      opening_lines (List.length (collect_classes fs))
                    (List.length (w :: ws)) ++
      flat_map report_block (collect_classes fs) ++
      summary_lines (flat_map issues_of (collect_classes fs))
  | Raise _ =>
      [ magnifier ++ py " Checking allTests properties in test files..." ]
  end.
Proof.
  unfold console, main, find_test_files, bind, print, ret, lift.
  cbn [truthy negb]. rewrite collect_eq.
  destruct (read_all (w :: ws)) as [fs|x]; [|reflexivity].
  cbn [app]. rewrite report_run by apply collect_classes_consistent.
  rewrite !app_nil_l. unfold summary_lines, opening_lines.
  destruct (truthy (flat_map issues_of _)); cbn [negb snd];
    rewrite <- !app_assoc; reflexivity.
Qed.

(* ================================================================== *)
(** ** Exit status *)

(** C1, as amended: the exit status is non-zero exactly when no test file
    was found, or some walked path cannot be read (the exception is not
    caught), or the run accumulated at least one issue, whatever its
    severity; an advisory issue counts like a blocking one. *)
Theorem exit_status_counts_every_issue (d : test_dir) :
  exit_status d <> 0 <->
  d = None \/ d = Some [] \/
  (exists test_files file_path e,
      d = Some test_files /\ In (Unreadable file_path e) test_files) \/
  (exists issues : list str, all_issues_of d = Ok issues /\ issues <> []).
Proof.
  rewrite exit_status_eq, all_issues_of_eq.
  destruct d as [[|w ws]|]; cbn [truthy].
  - split; [auto | intros _; discriminate].
  - destruct (read_all (w :: ws)) as [fs|x] eqn:R.
    + destruct (flat_map issues_of (collect_classes fs)) as [|i l];
        cbn [truthy].
      * split; [congruence|].
        intros [H|[H|[(t & p & e & [= <-] & H)|(i & [= <-] & H)]]];
          try discriminate; try congruence.
        apply read_all_ok in R. rewrite R in H.
        elim (readable_map _ _ _ H).
      * split; [|intros _; discriminate].
        intros _. right; right; right. eexists. split; [reflexivity|].
        discriminate.
    + split; [|intros _; discriminate].
      intros _. right; right; left.
      apply read_all_raise in R. destruct R as (fs & p & e & rest & R & _).
      exists (w :: ws), p, e. split; [reflexivity|]. rewrite R.
      apply in_or_app. right. left. reflexivity.
  - split; [auto | intros _; discriminate].
Qed.

(** C4, as amended: the exit status is 0 exactly when the directory
    exists, the walk found at least one path, every walked path can be
    read and no issue accumulated; it is 1 when the directory is missing,
    when the walk found no file, when a walked path cannot be read, or
    when issues were found. *)
Theorem exit_status_zero_needs_a_file (d : test_dir) :
  (exit_status d = 0 <->
   exists test_files, d = Some test_files /\ test_files <> [] /\
                      (forall file_path e,
                          ~ In (Unreadable file_path e) test_files) /\
                      all_issues_of d = Ok []) /\
  (exit_status d = 1 <->
   d = None \/ d = Some [] \/
   (exists test_files file_path e,
       d = Some test_files /\ In (Unreadable file_path e) test_files) \/
   exists issues, all_issues_of d = Ok issues /\ issues <> []).
Proof.
  rewrite all_issues_of_eq, exit_status_eq.
  destruct d as [[|w ws]|]; cbn [truthy].
  - split; split; try discriminate; auto.
    intros (fs & E & N & _). injection E as <-. elim N; reflexivity.
  - destruct (read_all (w :: ws)) as [fs|x] eqn:R.
    + pose proof (read_all_ok _ R) as M.
      destruct (flat_map issues_of (collect_classes fs)) as [|i l];
        cbn [truthy].
      * split; split; try discriminate; try (intros _; reflexivity).
        -- intros _. exists (w :: ws). split; [reflexivity|].
           split; [discriminate|]. split; [|reflexivity].
           intros p e H. rewrite M in H. elim (readable_map _ _ _ H).
        -- intros [H|[H|[(t & p & e & [= <-] & H)|(i & [= <-] & H)]]];
             try discriminate; try congruence.
           rewrite M in H. elim (readable_map _ _ _ H).
      * split; split; try discriminate; auto.
        -- intros (t & _ & _ & _ & ?). discriminate.
        -- intros _. right; right; right.
           eexists. split; [reflexivity | discriminate].
    + split; split; try discriminate; auto.
      * intros (t & _ & _ & _ & ?). discriminate.
      * intros _. right; right; left.
        apply read_all_raise in R. destruct R as (fs & p & e & rest & R & _).
        exists (w :: ws), p, e. split; [reflexivity|]. rewrite R.
        apply in_or_app. right. left. reflexivity.
  - split; split; try discriminate; auto.
    intros (fs & ? & _). discriminate.
Qed.

(* ================================================================== *)
(** ** The coverage checker *)

(** C5: a record without a registry gets exactly one issue, the blocking
    "Missing allTests property"; the signature and the method lists are not
    looked at. *)
Theorem no_registry_single_issue (tc : TestClassInfo) :
  has_alltests tc = false ->
  check_alltests_coverage tc = Ok [missing_alltests_issue] /\
  is_blocking missing_alltests_issue = true.
Proof.
  intros H. unfold check_alltests_coverage. rewrite H. simpl.
  split; reflexivity.
Qed.

(** C6: a record with a registry (both registry fields set, as the analyzer
    leaves them) whose registry names and test-method names are the same set
    gets no blocking issue, whatever the order of either list. *)
Theorem equal_sets_no_blocking (tc : TestClassInfo) :
  registry_consistent tc ->
  has_alltests tc = true ->
  (forall x, In x (alltests_methods tc) <-> In x (test_methods tc)) ->
  exists issues : list str,
    check_alltests_coverage tc = Ok issues /\
    Forall (fun issue => is_blocking issue = false) issues.
Proof.
  intros Hc Hh Hset. exists (issues_of tc). split; [apply check_ok, Hc|].
  unfold issues_of, check_alltests_coverage. rewrite Hh. simpl.
  destruct (alltests_signature tc) as [sig|]; [|constructor].
  rewrite (@difference_nil (test_methods tc) (alltests_methods tc))
    by (intros x; apply Hset).
  rewrite (@difference_nil (alltests_methods tc) (test_methods tc))
    by (intros x; apply Hset).
  simpl.
  destruct (PyStr.contains _ sig); simpl; repeat constructor.
Qed.

(* ================================================================== *)
(** ** The registry fields *)

(** C9: [has_alltests] is true exactly when [alltests_signature] is set, on
    a record as [__init__] builds it, after its analysis against any file,
    on every record collected from files that can be read, and on every
    record a run of [main] hands to the checker. *)
Theorem registry_flag_iff_signature :
  forall (f : swift_file) (test_files : list swift_file) (d : test_dir)
         (fn cn : str) (ln : nat),
    registry_consistent (new_TestClassInfo fn cn ln) /\
    registry_consistent (analyze_test_class f (new_TestClassInfo fn cn ln)) /\
    Forall registry_consistent (collect_classes test_files) /\
    Forall registry_consistent (records_of d).
Proof.
  intros f files d fn cn ln. split; [apply new_consistent|]. split; [|split].
  - apply analyze_preserves_consistent, new_consistent.
  - apply collect_classes_consistent.
  - apply records_of_consistent.
Qed.

(** C3, as amended: when some line of the file matches a registry pattern,
    the record has [has_alltests] set and its [alltests_signature] is the
    trimmed text of the LAST such line of the file: the loop goes on after
    a match and every later match overwrites the signature. *)
Theorem signature_is_last_match (f : swift_file) (tc : TestClassInfo) :
  existsb is_alltests_decl (lines_of f) = true ->
  has_alltests (analyze_test_class f tc) = true /\
  alltests_signature (analyze_test_class f tc) =
    option_map PyStr.strip (find is_alltests_decl (rev (lines_of f))).
Proof.
  intros H. unfold analyze_test_class.
  destruct (analyze_lines_fields (lines_of f) tc) as (-> & ->).
  destruct (find_alltests_fields (lines_of f) tc) as (-> & -> & _).
  rewrite H, orb_true_r. split; [reflexivity|].
  apply existsb_find_rev in H.
  destruct (find is_alltests_decl (rev (lines_of f))); [reflexivity|].
  elim H; reflexivity.
Qed.

(* ================================================================== *)
(** ** The quoted-literal pattern *)

Lemma star_head (p : char -> bool) (name rest : str) :
  Forall (fun c => p c = true) name ->
  match rest with [] => True | c :: _ => p c = false end ->
  forall (n : nat) (g : option str),
  exists tl, Re.star p n (name ++ rest) g =
             Re.MState (n + List.length name) rest g :: tl.
Proof.
  intros Hname Hrest. induction Hname as [|c name Hc _ IH]; intros n g.
  - exists []. rewrite Nat.add_0_r. destruct rest as [|c r]; simpl.
    + reflexivity.
    + rewrite Hrest. reflexivity.
  - destruct (IH (S n) g) as [tl E]. simpl. rewrite Hc, E.
    eexists. simpl. rewrite Nat.add_succ_r. reflexivity.
Qed.


Lemma run_quoted_other (c : char) (s : str) (n : nat) :
  c <> dquote -> Re.run quoted_pattern (Re.MState n (c :: s) None) = [].
Proof.
  intros H. unfold quoted_pattern.
  cbn [Re.run Re.rest PyStr.startswith flat_map].
  replace (N.eqb dquote c) with false; [reflexivity|].
  symmetry. apply N.eqb_neq. congruence.
Qed.

Lemma search_quoted_skip (a s : str) :
  Forall (fun c => c <> dquote) a ->
  forall n, Re.search_from quoted_pattern n (a ++ s) =
            Re.search_from quoted_pattern (n + List.length a) s.
Proof.
  induction 1 as [|c a Hc _ IH]; intros n.
  - rewrite Nat.add_0_r. reflexivity.
  - cbn [app Re.search_from]. rewrite run_quoted_other by exact Hc.
    rewrite IH. cbn [List.length]. rewrite Nat.add_succ_r. reflexivity.
Qed.

Lemma run_quoted_literal (name b : str) (n : nat) :
  Forall (fun c => c <> dquote) name -> name <> [] ->
  exists m tl,
    Re.run quoted_pattern (Re.MState n (dquote :: name ++ dquote :: b) None)
      = m :: tl /\
    Re.grp m = Some name.
Proof.
  intros Hname Hne.
  destruct name as [|c name]; [congruence|].
  inversion Hname as [|? ? Hc Hrest]; subst.
  destruct (@star_head (fun c => negb (N.eqb c dquote)) name (dquote :: b))
    with (n := S (n + 1)) (g := @None str) as [tl E].
  - eapply Forall_impl; [|exact Hrest]. intros x Hx. simpl.
    apply negb_true_iff, N.eqb_neq. exact Hx.
  - simpl. reflexivity.
  - unfold quoted_pattern.
    cbn [Re.run Re.rest Re.pos Re.grp PyStr.startswith flat_map List.length skipn app].
    rewrite N.eqb_refl. cbn [andb flat_map app Re.rest Re.pos Re.grp].
    replace (N.eqb c dquote) with false
      by (symmetry; apply N.eqb_neq; exact Hc).
    cbn [negb]. rewrite E.
    cbn [List.map flat_map Re.set_grp Re.rest Re.pos Re.grp PyStr.startswith app].
    rewrite N.eqb_refl. cbn [andb app].
    eexists. eexists. split; [reflexivity|].
    cbn [Re.grp]. f_equal.
    replace (S (n + 1) + List.length name - (n + 1))
      with (S (List.length name)) by lia.
    rewrite firstn_cons. f_equal.
    rewrite firstn_app, Nat.sub_diag, firstn_all. simpl.
    apply app_nil_r.
Qed.

(** The first quoted literal: on a line with no double quote before a
    quoted, non-empty, quote-free [name], a search gives [name]. *)
Lemma quoted_name_first (a name b : str) :
  Forall (fun c => c <> dquote) a ->
  Forall (fun c => c <> dquote) name -> name <> [] ->
  quoted_name (a ++ dquote :: name ++ dquote :: b) = [name].
Proof.
  intros Ha Hname Hne. unfold quoted_name, Re.search.
  rewrite search_quoted_skip by exact Ha.
  destruct (@run_quoted_literal name b (0 + List.length a) Hname Hne)
    as (m & tl & E & G).
  cbn [Re.search_from]. rewrite E.
  unfold group1_text, Re.group1. rewrite G. reflexivity.
Qed.

Lemma quoted_name_length (line : str) : List.length (quoted_name line) <= 1.
Proof. unfold quoted_name. destruct (Re.search _ _); simpl; lia. Qed.

(* ================================================================== *)
(** ** The registry-contents scan *)

Lemma add_quoted_name (line : str) (tc : TestClassInfo) :
  alltests_methods
    match Re.search quoted_pattern line with
    | Some method_match => add_alltests_method (group1_text method_match) tc
    | None => tc
    end
  = alltests_methods tc ++ quoted_name line.
Proof.
  unfold quoted_name. destruct (Re.search quoted_pattern line); simpl.
  - reflexivity.
  - symmetry. apply app_nil_r.
Qed.

(** In the mode: lines are taken up to the first that closes, and each
    gives its [contribution]. *)
Lemma scan_inside (lines : list str) :
  forall tc : TestClassInfo,
    alltests_methods (scan_alltests true lines tc) =
    alltests_methods tc ++ flat_map contribution (upto_closing lines).
Proof.
  induction lines as [|l lines IH]; intros tc.
  - simpl. symmetry. apply app_nil_r.
  - cbn [scan_alltests upto_closing]. unfold closes_alltests, contribution.
    fold (ends_array l).
    destruct (opens_alltests l) eqn:Ho; cbn [negb andb flat_map].
    + rewrite Ho. apply IH.
    + destruct (ends_array l); cbn [flat_map]; rewrite Ho.
      * rewrite add_quoted_name, app_nil_r. reflexivity.
      * rewrite IH, add_quoted_name, app_assoc. reflexivity.
Qed.

(** Before the mode: nothing is taken; the first line that opens the
    registry switches the mode on and is itself passed over. *)
Lemma scan_before (pre : list str) (decl : str) (rest : list str) :
  Forall (fun line => opens_alltests line = false) pre ->
  opens_alltests decl = true ->
  forall tc : TestClassInfo,
    scan_alltests false (pre ++ decl :: rest) tc = scan_alltests true rest tc.
Proof.
  intros Hpre Hd. induction Hpre as [|l pre Hl _ IH]; intros tc; simpl.
  - rewrite Hd. reflexivity.
  - rewrite Hl. apply IH.
Qed.

Lemma scan_never_opened (lines : list str) :
  Forall (fun line => opens_alltests line = false) lines ->
  forall tc : TestClassInfo, scan_alltests false lines tc = tc.
Proof.
  induction 1 as [|l lines Hl _ IH]; intros tc; simpl; [reflexivity|].
  rewrite Hl. apply IH.
Qed.

Lemma upto_closing_open (body : list str) :
  Forall (fun line => closes_alltests line = false) body ->
  upto_closing body = body.
Proof.
  induction 1 as [|l body Hl _ IH]; simpl; [reflexivity|].
  rewrite Hl, IH. reflexivity.
Qed.

Lemma upto_closing_closed (body : list str) (closing : str)
  (after : list str) :
  Forall (fun line => closes_alltests line = false) body ->
  closes_alltests closing = true ->
  upto_closing (body ++ closing :: after) = body ++ [closing].
Proof.
  intros Hb Hc. induction Hb as [|l body Hl _ IH]; simpl.
  - rewrite Hc. reflexivity.
  - rewrite Hl, IH. reflexivity.
Qed.

(** C7, as amended: in inside-registry mode a line that itself contains
    [static], [allTests] and [=] is passed over (no name, no end test);
    every other line gives at most one name, its first quoted literal; the
    scan stops at the first line, not passed over, whose trimmed text ends
    with the closing bracket, or at the end of the file. *)
Theorem inside_registry_scan (body : list str) (closing : str)
  (after : list str) (tc : TestClassInfo) :
  Forall (fun line => closes_alltests line = false) body ->
  closes_alltests closing = true ->
  alltests_methods (scan_alltests true (body ++ closing :: after) tc) =
    alltests_methods tc ++ flat_map contribution (body ++ [closing]) /\
  alltests_methods (scan_alltests true body tc) =
    alltests_methods tc ++ flat_map contribution body /\
  (forall line, List.length (contribution line) <= 1) /\
  (forall line, opens_alltests line = false ->
                contribution line = quoted_name line) /\
  (forall a name b : str,
      Forall (fun c => c <> dquote) a ->
      Forall (fun c => c <> dquote) name -> name <> [] ->
      quoted_name (a ++ dquote :: name ++ dquote :: b) = [name]).
Proof.
  intros Hb Hc. repeat split.
  - rewrite scan_inside, upto_closing_closed by assumption. reflexivity.
  - rewrite scan_inside, upto_closing_open by assumption. reflexivity.
  - intros line. unfold contribution.
    destruct (opens_alltests line); [simpl; lia | apply quoted_name_length].
  - intros line H. unfold contribution. rewrite H. reflexivity.
  - apply quoted_name_first.
Qed.

(** C10, as amended: the line that opens the registry is passed over
    whatever it holds; the scan goes on after it and takes the first quoted
    literal of every later line that does not itself contain [static],
    [allTests] and [=], up to the first such line whose trimmed text ends
    with the closing bracket, or to the end of the file. *)
Theorem declaration_line_skipped (pre : list str) (decl : str)
  (rest : list str) (tc : TestClassInfo) :
  Forall (fun line => opens_alltests line = false) pre ->
  opens_alltests decl = true ->
  existsb is_alltests_decl (pre ++ decl :: rest) = true ->
  alltests_methods (analyze_lines (pre ++ decl :: rest) tc) =
    alltests_methods tc ++ flat_map contribution (upto_closing rest).
Proof.
  intros Hpre Hd He. unfold analyze_lines.
  set (lines := pre ++ decl :: rest) in *.
  destruct (find_test_methods_fields lines (find_alltests lines tc))
    as (Hh & _ & Ha).
  destruct (find_alltests_fields lines tc) as (Hh' & _ & _ & Ha').
  rewrite Hh, Hh', He, orb_true_r.
  unfold lines. rewrite scan_before by assumption. rewrite scan_inside.
  fold lines. rewrite Ha, Ha'. reflexivity.
Qed.

(* ================================================================== *)
(** ** Group 1 of the capturing patterns *)

Lemma star_grp (p : char -> bool) (s : str) :
  forall (n : nat) (g : option str) (st : Re.mstate),
    In st (Re.star p n s g) -> Re.grp st = g.
Proof.
  induction s as [|c s IH]; intros n g st; simpl.
  - intros [<-|[]]. reflexivity.
  - destruct (p c).
    + intros H. apply in_app_or in H. destruct H as [H|[<-|[]]].
      * eapply IH, H.
      * reflexivity.
    + intros [<-|[]]. reflexivity.
Qed.

Lemma run_keeps_group (r : Re.regex) :
  forall st st' : Re.mstate,
    In st' (Re.run r st) -> Re.grp st <> None -> Re.grp st' <> None.
Proof.
  induction r as [|s|p|p|p|r1 IH1 r2 IH2|r1 IH1 r2 IH2|r1 IH1|r1 IH1];
    intros st st'; simpl.
  - destruct (Nat.eqb (Re.pos st) 0); [intros [<-|[]]; auto | intros []].
  - destruct (PyStr.startswith s (Re.rest st)); [intros [<-|[]]; auto | intros []].
  - destruct (Re.rest st) as [|c t]; [intros []|].
    destruct (p c); [intros [<-|[]]; auto | intros []].
  - intros H. apply star_grp in H. congruence.
  - destruct (Re.rest st) as [|c t]; [intros []|].
    destruct (p c); [|intros []]. intros H. apply star_grp in H. congruence.
  - intros H. apply in_flat_map in H. destruct H as (mid & Hm & H).
    intros G. eapply IH2; [exact H|]. eapply IH1; [exact Hm | exact G].
  - intros H. apply in_app_or in H. destruct H as [H|H]; eauto.
  - intros H. apply in_app_or in H. destruct H as [H|[<-|[]]]; eauto.
  - intros H. apply in_map_iff in H. destruct H as (x & <- & _).
    intros _. discriminate.
Qed.

Lemma run_closes_group (r : Re.regex) :
  Re.closes_group r = true ->
  forall st st' : Re.mstate, In st' (Re.run r st) -> Re.grp st' <> None.
Proof.
  induction r as [|s|p|p|p|r1 IH1 r2 IH2|r1 IH1 r2 IH2|r1 IH1|r1 IH1];
    simpl; try discriminate; intros Hc st st' H.
  - apply in_flat_map in H. destruct H as (mid & Hm & H).
    destruct (Re.closes_group r1) eqn:E1.
    + eapply run_keeps_group; [exact H|]. eapply IH1; [reflexivity | exact Hm].
    + eapply IH2; [exact Hc | exact H].
  - apply andb_true_iff in Hc. destruct Hc as [Hc1 Hc2].
    apply in_app_or in H. destruct H as [H|H]; eauto.
  - apply in_map_iff in H. destruct H as (x & <- & _). discriminate.
Qed.

Lemma search_from_In (r : Re.regex) (s : str) :
  forall (n : nat) (m : Re.mstate),
    Re.search_from r n s = Some m ->
    exists n' s', In m (Re.run r (Re.MState n' s' None)).
Proof.
  induction s as [|c s IH]; intros n m; simpl.
  - destruct (Re.run r (Re.MState n [] None)) as [|x l] eqn:E;
      [discriminate|].
    intros [= <-]. exists n, []. rewrite E. left; reflexivity.
  - destruct (Re.run r (Re.MState n (c :: s) None)) as [|x l] eqn:E.
    + apply IH.
    + intros [= <-]. exists n, (c :: s). rewrite E. left; reflexivity.
Qed.

(** Group 1 is set in every match the script takes a name from. *)
Lemma captures_group1 (line : str) (m : Re.mstate) :
  Re.rmatch class_pattern line = Some m \/
  Re.search test_method_pattern line = Some m \/
  Re.search quoted_pattern line = Some m ->
  Re.group1 m <> None.
Proof.
  unfold Re.group1, Re.rmatch, Re.search.
  intros [H|[H|H]].
  - destruct (Re.run class_pattern (Re.MState 0 line None)) as [|x l] eqn:E;
      [discriminate|].
    injection H as <-.
    apply (@run_closes_group class_pattern eq_refl (Re.MState 0 line None)).
    rewrite E. left; reflexivity.
  - apply search_from_In in H. destruct H as (n & s & H).
    exact (@run_closes_group test_method_pattern eq_refl _ _ H).
  - apply search_from_In in H. destruct H as (n & s & H).
    exact (@run_closes_group quoted_pattern eq_refl _ _ H).
Qed.

(* ================================================================== *)
(** ** The scenario of the specification *)

Lemma set_iter_single (a b : list str) (x : str) :
  difference a b = [x] -> set_iter a b = [x].
Proof.
  intros E. apply Permutation_length_1_inv, Permutation_sym.
  rewrite <- E. apply set_iter_perm.
Qed.

(** C2, as amended: written on one line, the scenario file yields one
    class (FooTests, line 1) with no test method and no registry found,
    since every pattern is anchored at the start of a line; the only issue
    is the blocking "Missing allTests property", and the exit status is 1.
    The outcome the scenario lists (test methods testA and testB, registry
    method testA, one blocking issue naming testB, exit status 1) is the
    outcome for the same declarations written one per line with the
    registry entry on a line of its own. *)
Theorem foo_tests_scenario :
  let tc1 := new_TestClassInfo (path foo_one_line) (py "FooTests") 1 in
  let tc2 := new_TestClassInfo (path foo_by_lines) (py "FooTests") 1 in
  (extract_test_classes foo_one_line = [tc1] /\
   analyze_test_class foo_one_line tc1 = tc1 /\
   check_alltests_coverage tc1 = Ok [missing_alltests_issue] /\
   all_issues_of (Some [foo_one_line]) = Ok [missing_alltests_issue] /\
   exit_status (Some [foo_one_line]) = 1) /\
  (extract_test_classes foo_by_lines = [tc2] /\
   has_alltests (analyze_test_class foo_by_lines tc2) = true /\
   test_methods (analyze_test_class foo_by_lines tc2) =
     [py "testA"; py "testB"] /\
   alltests_methods (analyze_test_class foo_by_lines tc2) = [py "testA"] /\
   check_alltests_coverage (analyze_test_class foo_by_lines tc2) =
     Ok [missing_methods_issue [py "testB"]] /\
   all_issues_of (Some [foo_by_lines]) =
     Ok [missing_methods_issue [py "testB"]] /\
   is_blocking (missing_methods_issue [py "testB"]) = true /\
   exit_status (Some [foo_by_lines]) = 1).
Proof.
  intros tc1 tc2.
  assert (E1 : extract_test_classes foo_one_line = [tc1])
    by (vm_compute; reflexivity).
  assert (A1 : analyze_test_class foo_one_line tc1 = tc1)
    by (vm_compute; reflexivity).
  assert (E2 : extract_test_classes foo_by_lines = [tc2])
    by (vm_compute; reflexivity).
  set (r2 := analyze_test_class foo_by_lines tc2).
  assert (T2 : test_methods r2 = [py "testA"; py "testB"])
    by (vm_compute; reflexivity).
  assert (M2 : alltests_methods r2 = [py "testA"])
    by (vm_compute; reflexivity).
  assert (H2 : has_alltests r2 = true) by (vm_compute; reflexivity).
  assert (S2 : alltests_signature r2 = Some (py "static var allTests = ["))
    by (vm_compute; reflexivity).
  assert (C2 : check_alltests_coverage r2 =
               Ok [missing_methods_issue [py "testB"]]).
  { unfold check_alltests_coverage. rewrite H2, S2, T2, M2.
    rewrite (@set_iter_single [py "testA"; py "testB"] [py "testA"]
               (py "testB")) by (vm_compute; reflexivity).
    vm_compute. reflexivity. }
  assert (I1 : issues_of tc1 = [missing_alltests_issue])
    by (vm_compute; reflexivity).
  assert (I2 : issues_of r2 = [missing_methods_issue [py "testB"]])
    by (unfold issues_of; rewrite C2; reflexivity).
  split.
  - split; [exact E1|]. split; [exact A1|].
    split; [vm_compute; reflexivity|]. split.
    + rewrite all_issues_of_eq. cbn [read_all read_text].
      unfold collect_classes. cbn [flat_map].
      rewrite E1. cbn [List.map flat_map app]. rewrite A1, I1. reflexivity.
    + rewrite exit_status_eq. cbn [read_all read_text truthy].
      unfold collect_classes. cbn [flat_map].
      rewrite E1. cbn [List.map flat_map app]. rewrite A1, I1. reflexivity.
  - split; [exact E2|]. split; [exact H2|]. split; [exact T2|].
    split; [exact M2|]. split; [exact C2|]. split; [|split].
    + rewrite all_issues_of_eq. cbn [read_all read_text].
      unfold collect_classes. cbn [flat_map].
      rewrite E2. cbn [List.map flat_map app]. fold r2. rewrite I2.
      reflexivity.
    + vm_compute; reflexivity.
    + rewrite exit_status_eq. cbn [read_all read_text truthy].
      unfold collect_classes. cbn [flat_map].
      rewrite E2. cbn [List.map flat_map app]. fold r2. rewrite I2.
      reflexivity.
Qed.

(* ================================================================== *)
(** ** What a match consumes *)

Lemma startswith_split (s l : str) :
  PyStr.startswith s l = true -> l = s ++ skipn (List.length s) l.
Proof.
  revert l. induction s as [|x s IH]; intros [|y l]; simpl;
    try discriminate; try reflexivity.
  intros H. apply andb_true_iff in H. destruct H as [E H].
  apply N.eqb_eq in E. subst. f_equal. apply IH, H.
Qed.

Lemma startswith_self (s t : str) : PyStr.startswith s (s ++ t) = true.
Proof.
  induction s as [|x s IH]; simpl; [destruct t; reflexivity|].
  rewrite N.eqb_refl. exact IH.
Qed.

Lemma startswith_app (s a b : str) :
  PyStr.startswith s a = true -> PyStr.startswith s (a ++ b) = true.
Proof.
  intros H. rewrite (startswith_split _ _ H), <- app_assoc.
  apply startswith_self.
Qed.

Lemma contains_app_l (s a b : str) :
  PyStr.contains s a = true -> PyStr.contains s (a ++ b) = true.
Proof.
  induction a as [|x a IH]; simpl.
  - rewrite orb_false_r. intros H. destruct s; [|discriminate].
    destruct b; reflexivity.
  - intros H. apply orb_true_iff in H. apply orb_true_iff.
    destruct H as [H|H]; [left | right; apply IH, H].
    exact (startswith_app _ (x :: a) b H).
Qed.

Lemma contains_app_r (s a b : str) :
  PyStr.contains s b = true -> PyStr.contains s (a ++ b) = true.
Proof.
  intros H. induction a as [|x a IH]; simpl; [exact H|].
  rewrite IH. apply orb_true_r.
Qed.

Lemma contains_self (s t : str) : PyStr.contains s (s ++ t) = true.
Proof.
  destruct (s ++ t) eqn:E; simpl.
  - destruct s; [reflexivity | discriminate].
  - rewrite <- E, startswith_self. reflexivity.
Qed.

Lemma star_spec (p : char -> bool) (s : str) :
  forall (n : nat) (g : option str) (st' : Re.mstate),
    In st' (Re.star p n s g) ->
    exists w, s = w ++ Re.rest st' /\
              Re.pos st' = n + List.length w /\
              Forall (fun c => p c = true) w /\
              Re.grp st' = g.
Proof.
  induction s as [|c s IH]; intros n g st'; simpl.
  - intros [<-|[]]. exists []. simpl. rewrite Nat.add_0_r. auto.
  - assert (Here : Re.MState n (c :: s) g = st' ->
                   exists w, c :: s = w ++ Re.rest st' /\
                             Re.pos st' = n + List.length w /\
                             Forall (fun c => p c = true) w /\
                             Re.grp st' = g).
    { intros <-. exists []. simpl. rewrite Nat.add_0_r. auto. }
    destruct (p c) eqn:Hc.
    + intros H. apply in_app_or in H. destruct H as [H|[H|[]]]; [|auto].
      destruct (IH _ _ _ H) as (w & -> & Hp & Hw & Hg).
      exists (c :: w). simpl. rewrite Hp, Nat.add_succ_r. auto.
    + intros [H|[]]. auto.
Qed.

(** A match of [r] from [st] to [st'] consumes a prefix [w] of the text
    ahead, and every required literal of [r] occurs in [w]. *)
Lemma run_consumes (r : Re.regex) :
  forall st st' : Re.mstate,
    In st' (Re.run r st) ->
    exists w, Re.rest st = w ++ Re.rest st' /\
              Re.pos st' = Re.pos st + List.length w /\
              Forall (fun s => PyStr.contains s w = true) (Re.required r).
Proof.
  induction r as [|s|p|p|p|r1 IH1 r2 IH2|r1 IH1 r2 IH2|r1 IH1|r1 IH1];
    intros st st'; simpl.
  - destruct (Nat.eqb (Re.pos st) 0); [|intros []]. intros [<-|[]].
    exists []. simpl. rewrite Nat.add_0_r. auto.
  - destruct (PyStr.startswith s (Re.rest st)) eqn:E; [|intros []].
    intros [<-|[]]. exists s. simpl. split; [apply startswith_split, E|].
    split; [reflexivity|]. constructor; [|constructor].
    rewrite <- (app_nil_r s) at 2. apply contains_self.
  - destruct (Re.rest st) as [|c t]; [intros []|].
    destruct (p c); [|intros []]. intros [<-|[]].
    exists [c]. simpl. rewrite Nat.add_1_r. auto.
  - intros H. destruct (star_spec _ _ _ _ _ H) as (w & E & Hp & _ & _).
    exists w. auto.
  - destruct (Re.rest st) as [|c t]; [intros []|].
    destruct (p c); [|intros []]. intros H.
    destruct (star_spec _ _ _ _ _ H) as (w & -> & Hp & _ & _).
    exists (c :: w). simpl. rewrite Hp, Nat.add_succ_r. auto.
  - intros H. apply in_flat_map in H. destruct H as (mid & Hm & H).
    destruct (IH1 _ _ Hm) as (w1 & E1 & P1 & R1).
    destruct (IH2 _ _ H) as (w2 & E2 & P2 & R2).
    exists (w1 ++ w2). rewrite E1, E2, P2, P1, length_app, <- app_assoc.
    split; [reflexivity|]. split; [lia|].
    apply Forall_app. split.
    + eapply Forall_impl; [|exact R1]. intros s. apply contains_app_l.
    + eapply Forall_impl; [|exact R2]. intros s. apply contains_app_r.
  - intros H. apply in_app_or in H.
    destruct H as [H|H]; [destruct (IH1 _ _ H) as (w & E & P & _)
                         | destruct (IH2 _ _ H) as (w & E & P & _)];
      exists w; auto.
  - intros H. apply in_app_or in H. destruct H as [H|[<-|[]]].
    + destruct (IH1 _ _ H) as (w & E & P & _). exists w. auto.
    + exists []. simpl. rewrite Nat.add_0_r. auto.
  - intros H. apply in_map_iff in H. destruct H as (x & <- & H).
    destruct (IH1 _ _ H) as (w & E & P & R). exists w. auto.
Qed.

Lemma run_groupless (r : Re.regex) :
  Re.groupless r = true ->
  forall st st' : Re.mstate, In st' (Re.run r st) -> Re.grp st' = Re.grp st.
Proof.
  induction r as [|s|p|p|p|r1 IH1 r2 IH2|r1 IH1 r2 IH2|r1 IH1|r1 IH1];
    simpl; try discriminate; intros Hg st st'.
  - destruct (Nat.eqb (Re.pos st) 0); [intros [<-|[]]; auto | intros []].
  - destruct (PyStr.startswith s (Re.rest st)); [intros [<-|[]]; auto | intros []].
  - destruct (Re.rest st) as [|c t]; [intros []|].
    destruct (p c); [intros [<-|[]]; auto | intros []].
  - intros H. eapply star_grp, H.
  - destruct (Re.rest st) as [|c t]; [intros []|].
    destruct (p c); [|intros []]. intros H. eapply star_grp, H.
  - apply andb_true_iff in Hg. destruct Hg as [G1 G2].
    intros H. apply in_flat_map in H. destruct H as (mid & Hm & H).
    rewrite (IH2 G2 _ _ H). apply (IH1 G1 _ _ Hm).
  - apply andb_true_iff in Hg. destruct Hg as [G1 G2].
    intros H. apply in_app_or in H. destruct H as [H|H]; auto.
  - intros H. apply in_app_or in H. destruct H as [H|[<-|[]]]; auto.
Qed.

(** What a capturing group stores: the text its body consumed. *)
Lemma run_group (r : Re.regex) (st st' : Re.mstate) :
  In st' (Re.run (Re.Grp r) st) ->
  exists (g : Re.mstate) (w : str),
    In g (Re.run r st) /\ Re.rest st = w ++ Re.rest g /\
    Re.grp st' = Some w.
Proof.
  simpl. intros H. apply in_map_iff in H. destruct H as (g & <- & H).
  destruct (run_consumes _ _ _ H) as (w & E & P & _).
  exists g, w. split; [exact H|]. split; [exact E|]. simpl.
  rewrite P, E. replace (Re.pos st + List.length w - Re.pos st)
    with (List.length w + 0) by lia.
  rewrite firstn_app_2. simpl. rewrite app_nil_r. reflexivity.
Qed.

Lemma search_from_split (r : Re.regex) (s : str) :
  forall (n : nat) (m : Re.mstate),
    Re.search_from r n s = Some m ->
    exists a b, s = a ++ b /\
                In m (Re.run r (Re.MState (n + List.length a) b None)).
Proof.
  induction s as [|c s IH]; intros n m; simpl.
  - destruct (Re.run r (Re.MState n [] None)) as [|x l] eqn:E;
      [discriminate|].
    intros [= <-]. exists [], []. simpl. rewrite Nat.add_0_r, E.
    split; [reflexivity | left; reflexivity].
  - destruct (Re.run r (Re.MState n (c :: s) None)) as [|x l] eqn:E.
    + intros H. destruct (IH _ _ H) as (a & b & -> & Hin).
      exists (c :: a), b. simpl. rewrite Nat.add_succ_r.
      split; [reflexivity | exact Hin].
    + intros [= <-]. exists [], (c :: s). simpl. rewrite Nat.add_0_r, E.
      split; [reflexivity | left; reflexivity].
Qed.

(* ================================================================== *)
(** ** The names the patterns capture *)

Lemma run_lit (s : str) (st st' : Re.mstate) :
  In st' (Re.run (Re.Lit s) st) -> Re.rest st = s ++ Re.rest st'.
Proof.
  simpl. destruct (PyStr.startswith s (Re.rest st)) eqn:E; [|intros []].
  intros [<-|[]]. simpl. apply startswith_split, E.
Qed.

Lemma run_plus (p : char -> bool) (st st' : Re.mstate) :
  In st' (Re.run (Re.Plus p) st) ->
  exists w, w <> [] /\ Forall (fun c => p c = true) w /\
            Re.rest st = w ++ Re.rest st'.
Proof.
  simpl. destruct (Re.rest st) as [|c t]; [intros []|].
  destruct (p c) eqn:Hc; [|intros []]. intros H.
  destruct (star_spec _ _ _ _ _ H) as (w & -> & _ & Hw & _).
  exists (c :: w). split; [discriminate|]. split; [|reflexivity].
  constructor; assumption.
Qed.

Lemma run_seq (r1 r2 : Re.regex) (st st' : Re.mstate) :
  In st' (Re.run (Re.Seq r1 r2) st) ->
  exists mid, In mid (Re.run r1 st) /\ In st' (Re.run r2 mid).
Proof. simpl. intros H. apply in_flat_map in H. exact H. Qed.

(** A test-method name is [test] followed by one or more word characters. *)
Lemma test_method_group (st m : Re.mstate) :
  In m (Re.run test_method_pattern st) ->
  exists w, Re.grp m = Some (py "test" ++ w) /\ w <> [] /\
            Forall (fun c => isword c = true) w.
Proof.
  unfold test_method_pattern. intros H.
  do 4 (apply run_seq in H; destruct H as (? & _ & H)).
  apply run_seq in H. destruct H as (mid & Hg & H).
  assert (G : Re.grp m = Re.grp mid)
    by (eapply run_groupless; [|exact H]; reflexivity).
  rewrite G.
  apply run_group in Hg. destruct Hg as (g & w & Hg & E & ->).
  apply run_seq in Hg. destruct Hg as (t & Ht & Hg).
  apply run_lit in Ht. apply run_plus in Hg.
  destruct Hg as (w2 & Hne & Hw & E2).
  exists w2. split; [|split; assumption].
  f_equal. rewrite Ht, E2, app_assoc in E.
  apply app_inv_tail in E. symmetry. exact E.
Qed.

Lemma class_group (st m : Re.mstate) :
  In m (Re.run class_pattern st) ->
  exists w, Re.grp m = Some w /\ w <> [] /\
            Forall (fun c => isword c = true) w.
Proof.
  unfold class_pattern. intros H.
  do 5 (apply run_seq in H; destruct H as (? & _ & H)).
  apply run_seq in H. destruct H as (mid & Hg & H).
  assert (G : Re.grp m = Re.grp mid)
    by (eapply run_groupless; [|exact H]; reflexivity).
  rewrite G.
  apply run_group in Hg. destruct Hg as (g & w & Hg & E & ->).
  apply run_plus in Hg. destruct Hg as (w2 & Hne & Hw & E2).
  exists w. split; [reflexivity|].
  rewrite E2 in E. apply app_inv_tail in E. subst. split; assumption.
Qed.

Lemma quoted_group (st m : Re.mstate) :
  In m (Re.run quoted_pattern st) ->
  exists w, Re.grp m = Some w /\ w <> [] /\
            Forall (fun c => c <> dquote) w.
Proof.
  unfold quoted_pattern. intros H.
  apply run_seq in H. destruct H as (? & _ & H).
  apply run_seq in H. destruct H as (mid & Hg & H).
  assert (G : Re.grp m = Re.grp mid)
    by (eapply run_groupless; [|exact H]; reflexivity).
  rewrite G.
  apply run_group in Hg. destruct Hg as (g & w & Hg & E & ->).
  apply run_plus in Hg. destruct Hg as (w2 & Hne & Hw & E2).
  exists w. split; [reflexivity|].
  rewrite E2 in E. apply app_inv_tail in E. subst. split; [assumption|].
  eapply Forall_impl; [|exact Hw]. intros c Hc.
  apply negb_true_iff, N.eqb_neq in Hc. exact Hc.
Qed.

Lemma test_name_shape (line name : str) :
  In name (test_name line) ->
  exists w, name = py "test" ++ w /\ w <> [] /\
            Forall (fun c => isword c = true) w.
Proof.
  unfold test_name, Re.search.
  destruct (Re.search_from test_method_pattern 0 line) as [m|] eqn:E;
    [|intros []].
  intros [<-|[]]. apply search_from_In in E. destruct E as (n & s & H).
  destruct (test_method_group _ _ H) as (w & G & Hw).
  exists w. unfold group1_text, Re.group1. rewrite G. split; tauto.
Qed.

Lemma quoted_name_shape (line name : str) :
  In name (quoted_name line) ->
  name <> [] /\ Forall (fun c => c <> dquote) name.
Proof.
  unfold quoted_name, Re.search.
  destruct (Re.search_from quoted_pattern 0 line) as [m|] eqn:E;
    [|intros []].
  intros [<-|[]]. apply search_from_In in E. destruct E as (n & s & H).
  destruct (quoted_group _ _ H) as (w & G & Hw).
  unfold group1_text, Re.group1. rewrite G. exact Hw.
Qed.

(* ================================================================== *)
(** ** The analysis in closed form *)

Lemma find_test_methods_names (lines : list str) :
  forall tc : TestClassInfo,
    test_methods (find_test_methods lines tc) =
    test_methods tc ++ flat_map test_name lines.
Proof.
  unfold find_test_methods, test_name.
  induction lines as [|l lines IH]; intros tc; simpl.
  - symmetry. apply app_nil_r.
  - rewrite IH. destruct (Re.search test_method_pattern l); simpl.
    + rewrite <- app_assoc. reflexivity.
    + reflexivity.
Qed.

Lemma analyze_test_methods (lines : list str) (tc : TestClassInfo) :
  test_methods (analyze_lines lines tc) =
  test_methods tc ++ flat_map test_name lines.
Proof.
  unfold analyze_lines.
  assert (E : test_methods (find_test_methods lines (find_alltests lines tc))
              = test_methods tc ++ flat_map test_name lines).
  { rewrite find_test_methods_names.
    destruct (find_alltests_fields lines tc) as (_ & _ & -> & _).
    reflexivity. }
  destruct (has_alltests _); [|exact E].
  destruct (scan_alltests_fields lines false
              (find_test_methods lines (find_alltests lines tc)))
    as (_ & _ & ->).
  exact E.
Qed.

(** The scan adds its names to those the record holds, whatever the record. *)
Lemma scan_adds (lines : list str) :
  forall b : bool,
  exists d : list str,
    forall tc : TestClassInfo,
      alltests_methods (scan_alltests b lines tc) = alltests_methods tc ++ d.
Proof.
  induction lines as [|l lines IH]; intros b.
  - exists []. intros tc. simpl. symmetry. apply app_nil_r.
  - destruct (IH true) as [dt Ht]. destruct (IH false) as [df Hf].
    cbn [scan_alltests]. destruct (opens_alltests l); [exists dt; exact Ht|].
    destruct b; [|exists df; exact Hf].
    destruct (PyStr.endswith _ _).
    + exists (quoted_name l). intros tc. apply add_quoted_name.
    + exists (quoted_name l ++ dt). intros tc.
      rewrite Ht, add_quoted_name, app_assoc. reflexivity.
Qed.

Lemma scan_registry_names (lines : list str) (tc : TestClassInfo) :
  alltests_methods (scan_alltests false lines tc) =
  alltests_methods tc ++ registry_names lines.
Proof.
  unfold registry_names. destruct (scan_adds lines false) as [d H].
  rewrite !H. reflexivity.
Qed.

Lemma analyze_alltests_methods (lines : list str) (tc : TestClassInfo) :
  alltests_methods (analyze_lines lines tc) =
  alltests_methods tc ++
  (if has_alltests tc || existsb is_alltests_decl lines
   then registry_names lines else []).
Proof.
  unfold analyze_lines.
  destruct (find_test_methods_fields lines (find_alltests lines tc))
    as (Hh & _ & Ha).
  destruct (find_alltests_fields lines tc) as (Hh' & _ & _ & Ha').
  rewrite Hh, Hh'.
  destruct (has_alltests tc || existsb is_alltests_decl lines).
  - rewrite scan_registry_names, Ha, Ha'. reflexivity.
  - rewrite Ha, Ha', app_nil_r. reflexivity.
Qed.

Lemma scan_names_from_lines (lines : list str) :
  forall (b : bool) (tc : TestClassInfo) (name : str),
    In name (alltests_methods (scan_alltests b lines tc)) ->
    In name (alltests_methods tc) \/
    exists line, In line lines /\ In name (quoted_name line).
Proof.
  induction lines as [|l lines IH]; intros b tc name; simpl; [auto|].
  assert (Up : forall t, In name (alltests_methods (scan_alltests true lines t))
               -> In name (alltests_methods t) \/
                  exists line, (l = line \/ In line lines) /\
                               In name (quoted_name line)).
  { intros t H. destruct (IH _ _ _ H) as [?|(x & ? & ?)]; eauto. }
  assert (Q : forall t, In name (alltests_methods t ++ quoted_name l) ->
              In name (alltests_methods t) \/
              exists line, (l = line \/ In line lines) /\
                           In name (quoted_name line)).
  { intros t H. apply in_app_or in H. destruct H; eauto. }
  destruct (opens_alltests l); [apply Up|].
  destruct b.
  - destruct (PyStr.endswith _ _).
    + rewrite add_quoted_name. apply Q.
    + intros H. apply Up in H. destruct H as [H|H]; [|auto].
      rewrite add_quoted_name in H. apply Q, H.
  - intros H. destruct (IH _ _ _ H) as [?|(x & ? & ?)]; eauto.
Qed.

Lemma find_alltests_identity (lines : list str) :
  forall tc : TestClassInfo,
    filename (find_alltests lines tc) = filename tc /\
    class_name (find_alltests lines tc) = class_name tc /\
    line_number (find_alltests lines tc) = line_number tc.
Proof.
  unfold find_alltests. induction lines as [|l lines IH]; intros t; simpl;
    [auto|].
  destruct (is_alltests_decl l); [|apply IH].
  exact (IH (set_alltests (PyStr.strip l) t)).
Qed.

Lemma find_test_methods_identity (lines : list str) :
  forall tc : TestClassInfo,
    filename (find_test_methods lines tc) = filename tc /\
    class_name (find_test_methods lines tc) = class_name tc /\
    line_number (find_test_methods lines tc) = line_number tc.
Proof.
  unfold find_test_methods. induction lines as [|l lines IH]; intros t;
    simpl; [auto|].
  destruct (Re.search test_method_pattern l) as [m|]; [|apply IH].
  exact (IH (add_test_method (group1_text m) t)).
Qed.

Lemma scan_alltests_identity (lines : list str) :
  forall (b : bool) (tc : TestClassInfo),
    filename (scan_alltests b lines tc) = filename tc /\
    class_name (scan_alltests b lines tc) = class_name tc /\
    line_number (scan_alltests b lines tc) = line_number tc.
Proof.
  induction lines as [|l lines IH]; intros b t; simpl; [auto|].
  destruct (opens_alltests l); [apply IH|]. destruct b; [|apply IH].
  destruct (Re.search quoted_pattern l) as [m|];
    destruct (PyStr.endswith _ _); auto.
  exact (IH true (add_alltests_method (group1_text m) t)).
Qed.

Lemma analyze_identity (lines : list str) (tc : TestClassInfo) :
  filename (analyze_lines lines tc) = filename tc /\
  class_name (analyze_lines lines tc) = class_name tc /\
  line_number (analyze_lines lines tc) = line_number tc.
Proof.
  unfold analyze_lines.
  destruct (find_alltests_identity lines tc) as (A1 & A2 & A3).
  destruct (find_test_methods_identity lines (find_alltests lines tc))
    as (B1 & B2 & B3).
  destruct (has_alltests _).
  - destruct (scan_alltests_identity lines false
                (find_test_methods lines (find_alltests lines tc)))
      as (-> & -> & ->).
    rewrite B1, B2, B3. auto.
  - rewrite B1, B2, B3. auto.
Qed.

Lemma search_required (r : Re.regex) (line : str) (m : Re.mstate) (s : str) :
  Re.search r line = Some m -> In s (Re.required r) ->
  PyStr.contains s line = true.
Proof.
  unfold Re.search. intros H Hs.
  apply search_from_split in H. destruct H as (a & b & -> & H).
  apply run_consumes in H. destruct H as (w & E & _ & R).
  simpl in E. subst b. apply contains_app_r, contains_app_l.
  rewrite Forall_forall in R. apply R, Hs.
Qed.

Lemma NoDup_pyset (l : list str) : NoDup (pyset l).
Proof.
  induction l as [|x l IH]; simpl; constructor.
  - rewrite filter_In. intros [_ H]. apply negb_true_iff in H.
    assert (E : PyStr.eqb x x = true) by (apply eqb_eq; reflexivity).
    congruence.
  - apply NoDup_filter, IH.
Qed.

Lemma NoDup_difference (a b : list str) : NoDup (difference a b).
Proof. unfold difference. apply NoDup_filter, NoDup_pyset. Qed.

Lemma truthy_true_In (l : list str) :
  truthy l = true <-> exists x, In x l.
Proof.
  destruct l as [|x l]; simpl; split.
  - discriminate.
  - intros [x []].
  - intros _. exists x. auto.
  - reflexivity.
Qed.

Lemma blocking_missing (names : list str) :
  is_blocking (missing_methods_issue names) = true.
Proof. reflexivity. Qed.

Lemma advisory_extra (names : list str) :
  is_blocking (extra_methods_issue names) = false /\
  is_advisory (extra_methods_issue names) = true.
Proof. split; reflexivity. Qed.

(* ================================================================== *)
(** ** More on the analyzer *)

(** X1: every name the analysis of a fresh record puts in [test_methods]
    is [test] followed by one or more word characters. *)
Theorem test_method_names_shape (f : swift_file) (fn cn : str) (ln : nat)
  (name : str) :
  In name (test_methods (analyze_test_class f (new_TestClassInfo fn cn ln))) ->
  exists w, name = py "test" ++ w /\ w <> [] /\
            Forall (fun c => isword c = true) w.
Proof.
  unfold analyze_test_class. rewrite analyze_test_methods. simpl.
  intros H. apply in_flat_map in H. destruct H as (line & _ & H).
  eapply test_name_shape, H.
Qed.

(** X2: every name the analysis of a fresh record puts in
    [alltests_methods] is the first quoted literal of some line of the
    file; it is not empty and holds no double quote. *)
Theorem registry_names_shape (f : swift_file) (fn cn : str) (ln : nat)
  (name : str) :
  In name
     (alltests_methods (analyze_test_class f (new_TestClassInfo fn cn ln))) ->
  (exists line, In line (lines_of f) /\ quoted_name line = [name]) /\
  name <> [] /\ Forall (fun c => c <> dquote) name.
Proof.
  unfold analyze_test_class. rewrite analyze_alltests_methods. simpl.
  destruct (existsb is_alltests_decl (lines_of f)); [|intros []].
  unfold registry_names. intros H.
  apply scan_names_from_lines in H. destruct H as [[]|(line & Hl & Hn)].
  split; [|eapply quoted_name_shape, Hn].
  exists line. split; [exact Hl|].
  unfold quoted_name in *.
  destruct (Re.search quoted_pattern line); [|destruct Hn].
  destruct Hn as [<-|[]]. reflexivity.
Qed.

(** X3: the analysis keeps a record's file name, class name and line
    number, and what it finds depends on the file alone: two fresh records
    analyzed against the same file end with the same registry flag,
    signature, test methods and registry methods, whichever class each
    stands for. *)
Theorem analysis_by_file (f : swift_file) (tc : TestClassInfo)
  (fn1 cn1 fn2 cn2 : str) (ln1 ln2 : nat) :
  (filename (analyze_test_class f tc) = filename tc /\
   class_name (analyze_test_class f tc) = class_name tc /\
   line_number (analyze_test_class f tc) = line_number tc) /\
  let r1 := analyze_test_class f (new_TestClassInfo fn1 cn1 ln1) in
  let r2 := analyze_test_class f (new_TestClassInfo fn2 cn2 ln2) in
  has_alltests r1 = has_alltests r2 /\
  alltests_signature r1 = alltests_signature r2 /\
  test_methods r1 = test_methods r2 /\
  alltests_methods r1 = alltests_methods r2.
Proof.
  split; [apply analyze_identity|]. unfold analyze_test_class. cbv zeta.
  rewrite !analyze_test_methods, !analyze_alltests_methods.
  destruct (analyze_lines_fields (lines_of f) (new_TestClassInfo fn1 cn1 ln1))
    as (-> & ->).
  destruct (analyze_lines_fields (lines_of f) (new_TestClassInfo fn2 cn2 ln2))
    as (-> & ->).
  destruct (find_alltests_fields (lines_of f) (new_TestClassInfo fn1 cn1 ln1))
    as (-> & -> & _).
  destruct (find_alltests_fields (lines_of f) (new_TestClassInfo fn2 cn2 ln2))
    as (-> & -> & _).
  simpl. auto.
Qed.

(** X4: the analysis appends: [test_methods] grows by the names of the
    file's lines, in line order and with repeats; analyzing a record a
    second time against the same file lists every name twice. *)
Theorem reanalysis_appends (f : swift_file) (tc : TestClassInfo) :
  test_methods (analyze_test_class f tc) =
    test_methods tc ++ flat_map test_name (lines_of f) /\
  (forall line, List.length (test_name line) <= 1) /\
  test_methods (analyze_test_class f (analyze_test_class f tc)) =
    test_methods tc ++ flat_map test_name (lines_of f)
                    ++ flat_map test_name (lines_of f).
Proof.
  unfold analyze_test_class. rewrite !analyze_test_methods, <- app_assoc.
  split; [reflexivity|]. split; [|reflexivity].
  intros line. unfold test_name.
  destruct (Re.search test_method_pattern line); simpl; lia.
Qed.

(** X5: a line on which a registry pattern is found holds [static] and
    [allTests]; if it also holds an [=], it is a line that opens the
    registry scan. *)
Theorem registry_line_with_equals_opens (line : str) :
  is_alltests_decl line = true ->
  PyStr.contains (py "static") line = true /\
  PyStr.contains (py "allTests") line = true /\
  (PyStr.contains (py "=") line = true -> opens_alltests line = true).
Proof.
  unfold is_alltests_decl, alltests_patterns. cbn [existsb].
  rewrite orb_false_r. intros H.
  assert (S : PyStr.contains (py "static") line = true /\
              PyStr.contains (py "allTests") line = true).
  { apply orb_true_iff in H. destruct H as [H|H];
      match type of H with
      | matched (Re.search ?r line) = true =>
          destruct (Re.search r line) as [m|] eqn:E; [|discriminate]
      end;
      split; apply (@search_required _ _ _ _ E); cbn;
      repeat (first [left; reflexivity | right]). }
  destruct S as [S1 S2]. split; [exact S1|]. split; [exact S2|].
  intros He. unfold opens_alltests. rewrite S1, S2, He. reflexivity.
Qed.

(* ================================================================== *)
(** ** More on the coverage checker *)

Lemma truthy_perm {A} (a b : list A) :
  Permutation a b -> truthy a = truthy b.
Proof.
  intros P. destruct a as [|x a]; destruct b as [|y b]; try reflexivity.
  - apply Permutation_nil in P. discriminate.
  - apply Permutation_sym, Permutation_nil in P. discriminate.
Qed.

Lemma set_iter_In (a b : list str) (x : str) :
  In x (set_iter a b) <-> In x a /\ ~ In x b.
Proof.
  rewrite <- difference_In. split; apply Permutation_in.
  - apply set_iter_perm.
  - apply Permutation_sym, set_iter_perm.
Qed.

Lemma set_iter_NoDup (a b : list str) : NoDup (set_iter a b).
Proof.
  eapply Permutation_NoDup; [apply Permutation_sym, set_iter_perm|].
  apply NoDup_difference.
Qed.

(** The issues of a record with a registry, by severity. *)
Lemma check_by_severity (tc : TestClassInfo) (sig : str) :
  has_alltests tc = true -> alltests_signature tc = Some sig ->
  exists issues : list str,
    check_alltests_coverage tc = Ok issues /\
    filter is_blocking issues =
      (if truthy (set_iter (test_methods tc) (alltests_methods tc))
       then [missing_methods_issue
               (set_iter (test_methods tc) (alltests_methods tc))]
       else []) /\
    filter is_advisory issues =
      (if PyStr.contains (py "static var allTests") sig
       then [] else [signature_issue]) ++
      (if truthy (set_iter (alltests_methods tc) (test_methods tc))
       then [extra_methods_issue
               (set_iter (alltests_methods tc) (test_methods tc))]
       else []).
Proof.
  intros Hh Hs. unfold check_alltests_coverage. rewrite Hh, Hs.
  rewrite <- (truthy_perm (set_iter_perm (test_methods tc)
                             (alltests_methods tc))).
  rewrite <- (truthy_perm (set_iter_perm (alltests_methods tc)
                             (test_methods tc))).
  cbv zeta. cbn [negb].
  eexists. split; [reflexivity|].
  destruct (PyStr.contains _ sig);
    destruct (truthy (set_iter (test_methods tc) (alltests_methods tc)));
    destruct (truthy (set_iter (alltests_methods tc) (test_methods tc)));
    split; reflexivity.
Qed.

(** X6: for a record with a registry, the one blocking issue there can be
    lists exactly the test methods that the registry lacks, and the
    advisory issue about extra methods lists exactly the registry names
    that are no test method, each name once however often it was
    collected; either issue is left out when it would list no name. *)
Theorem issue_names_exact (tc : TestClassInfo) (sig : str) :
  has_alltests tc = true -> alltests_signature tc = Some sig ->
  let missing := set_iter (test_methods tc) (alltests_methods tc) in
  let extra := set_iter (alltests_methods tc) (test_methods tc) in
  (NoDup missing /\
   forall x, In x missing <->
             In x (test_methods tc) /\ ~ In x (alltests_methods tc)) /\
  (NoDup extra /\
   forall x, In x extra <->
             In x (alltests_methods tc) /\ ~ In x (test_methods tc)) /\
  exists issues : list str,
    check_alltests_coverage tc = Ok issues /\
    filter is_blocking issues =
      (if truthy missing then [missing_methods_issue missing] else []) /\
    (In (extra_methods_issue extra) issues <-> extra <> []).
Proof.
  intros Hh Hs missing extra.
  split; [split; [apply set_iter_NoDup | intros x; apply set_iter_In]|].
  split; [split; [apply set_iter_NoDup | intros x; apply set_iter_In]|].
  destruct (check_by_severity tc Hh Hs) as (issues & E & B & A).
  exists issues. split; [exact E|]. split; [exact B|].
  assert (I : In (extra_methods_issue extra) issues <->
              In (extra_methods_issue extra) (filter is_advisory issues)).
  { rewrite filter_In. split; [intros H; split; [exact H | reflexivity]|].
    intros [H _]. exact H. }
  rewrite I, A. fold extra. clear.
  destruct (PyStr.contains _ sig); destruct extra as [|x r]; simpl; split;
    try congruence; try tauto; try (intros [H|[]]; discriminate H);
    try (intros _; auto).
Qed.

(** X7: a registry that is found but never opened: when some line matches
    a registry pattern and no line holds [static], [allTests] and [=]
    together (a computed property, say), a fresh record ends with the
    registry flag set and no registry method, so every test method found
    is reported as missing. *)
Theorem registry_never_opened (f : swift_file) (fn cn : str) (ln : nat) :
  existsb is_alltests_decl (lines_of f) = true ->
  Forall (fun line => opens_alltests line = false) (lines_of f) ->
  let r := analyze_test_class f (new_TestClassInfo fn cn ln) in
  has_alltests r = true /\
  alltests_methods r = [] /\
  (forall x, In x (set_iter (test_methods r) (alltests_methods r)) <->
             In x (test_methods r)) /\
  (test_methods r <> [] ->
   exists issues : list str,
     check_alltests_coverage r = Ok issues /\
     filter is_blocking issues =
       [missing_methods_issue
          (set_iter (test_methods r) (alltests_methods r))]).
Proof.
  intros He Ho r.
  assert (Hh : has_alltests r = true).
  { unfold r, analyze_test_class.
    destruct (analyze_lines_fields (lines_of f)
                (new_TestClassInfo fn cn ln)) as (-> & _).
    destruct (find_alltests_fields (lines_of f)
                (new_TestClassInfo fn cn ln)) as (-> & _).
    rewrite He. apply orb_true_r. }
  assert (Ha : alltests_methods r = []).
  { unfold r, analyze_test_class. rewrite analyze_alltests_methods.
    unfold registry_names. rewrite scan_never_opened by exact Ho.
    simpl. rewrite He. reflexivity. }
  assert (Hm : forall x, In x (set_iter (test_methods r) (alltests_methods r))
                         <-> In x (test_methods r)).
  { intros x. rewrite set_iter_In, Ha. simpl. tauto. }
  split; [exact Hh|]. split; [exact Ha|]. split; [exact Hm|].
  intros Hne.
  destruct (alltests_signature r) as [sig|] eqn:Hs.
  - destruct (check_by_severity r Hh Hs) as (issues & E & B & _).
    exists issues. split; [exact E|]. rewrite B.
    destruct (set_iter (test_methods r) (alltests_methods r)) as [|y l] eqn:S;
      [|reflexivity].
    destruct (test_methods r) as [|x t]; [congruence|].
    destruct (proj2 (Hm x) (or_introl eq_refl)).
  - pose proof (analyze_preserves_consistent (lines_of f)
                  (new_consistent fn cn ln)) as C.
    destruct C as [C _]. elim (C Hh). exact Hs.
Qed.


(* ================================================================== *)
(** ** The class extractor *)

Lemma extract_loop_acc (fp : str) (lines : list str) :
  forall (i : nat) (classes : list TestClassInfo),
    extract_loop fp i lines classes =
    classes ++ extract_loop fp i lines [].
Proof.
  induction lines as [|l lines IH]; intros i classes; simpl.
  - symmetry. apply app_nil_r.
  - destruct (Re.rmatch class_pattern (PyStr.strip l)); [|apply IH].
    rewrite IH, (IH _ [_]), app_assoc. reflexivity.
Qed.

Lemma extract_loop_In (fp : str) (lines : list str) :
  forall (i : nat) (tc : TestClassInfo),
    In tc (extract_loop fp i lines []) <->
    exists k line m,
      nth_error lines k = Some line /\
      Re.rmatch class_pattern (PyStr.strip line) = Some m /\
      tc = new_TestClassInfo fp (group1_text m) (i + k).
Proof.
  induction lines as [|l lines IH]; intros i tc; simpl.
  - split; [intros [] | intros (k & line & m & H & _)].
    destruct k; discriminate H.
  - assert (Later : In tc (extract_loop fp (S i) lines []) <->
                    exists k line m,
                      nth_error (l :: lines) (S k) = Some line /\
                      Re.rmatch class_pattern (PyStr.strip line) = Some m /\
                      tc = new_TestClassInfo fp (group1_text m) (i + S k)).
    { rewrite IH. split; intros (k & line & m & H1 & H2 & H3);
        exists k, line, m; simpl in *; rewrite Nat.add_succ_r in *; auto. }
    destruct (Re.rmatch class_pattern (PyStr.strip l)) as [m0|] eqn:E.
    + rewrite extract_loop_acc. simpl. rewrite Later. split.
      * intros [<-|(k & line & m & H)].
        -- exists 0, l, m0. rewrite Nat.add_0_r. auto.
        -- exists (S k), line, m. exact H.
      * intros (k & line & m & H1 & H2 & H3). destruct k as [|k].
        -- left. injection H1 as <-. rewrite E in H2. injection H2 as <-.
           rewrite Nat.add_0_r in H3. auto.
        -- right. exists k, line, m. auto.
    + rewrite Later. split.
      * intros (k & line & m & H). exists (S k), line, m. exact H.
      * intros (k & line & m & H1 & H2 & H3). destruct k as [|k].
        -- injection H1 as <-. rewrite E in H2. discriminate.
        -- exists k, line, m. auto.
Qed.

Lemma extract_loop_sorted (fp : str) (lines : list str) :
  forall i : nat,
    StronglySorted lt (List.map line_number (extract_loop fp i lines [])) /\
    Forall (fun n => i <= n) (List.map line_number (extract_loop fp i lines [])).
Proof.
  induction lines as [|l lines IH]; intros i; simpl.
  - split; constructor.
  - destruct (IH (S i)) as [S1 F1].
    assert (F2 : Forall (fun n => i <= n)
                   (List.map line_number (extract_loop fp (S i) lines []))).
    { eapply Forall_impl; [|exact F1]. intros n; simpl; lia. }
    destruct (Re.rmatch class_pattern (PyStr.strip l)); [|auto].
    rewrite extract_loop_acc. simpl. split.
    + constructor; [exact S1|].
      eapply Forall_impl; [|exact F1]. intros n; simpl; lia.
    + constructor; [lia | exact F2].
Qed.

(** X9: [extract_test_classes] gives exactly one fresh record for each
    line whose trimmed text matches the class pattern, with the path of
    the file, the name captured on that line and the 1-based number of the
    line; the records come in increasing line order. *)
Theorem extract_exact (f : swift_file) :
  (forall tc : TestClassInfo,
      In tc (extract_test_classes f) <->
      exists k line m,
        nth_error (lines_of f) k = Some line /\
        Re.rmatch class_pattern (PyStr.strip line) = Some m /\
        tc = new_TestClassInfo (path f) (group1_text m) (S k)) /\
  StronglySorted lt (List.map line_number (extract_test_classes f)) /\
  Forall (fun n => 1 <= n <= List.length (lines_of f))
         (List.map line_number (extract_test_classes f)).
Proof.
  unfold extract_test_classes. split; [|split].
  - intros tc. apply extract_loop_In.
  - apply extract_loop_sorted.
  - apply Forall_forall. intros n Hn. apply in_map_iff in Hn.
    destruct Hn as (tc & <- & Hin). apply extract_loop_In in Hin.
    destruct Hin as (k & line & m & Hk & _ & ->). simpl.
    assert (k < List.length (lines_of f))
      by (apply nth_error_Some; congruence).
    lia.
Qed.

(** X10: the class name of every extracted record is a non-empty run of
    word characters. *)
Theorem class_name_shape (f : swift_file) (tc : TestClassInfo) :
  In tc (extract_test_classes f) ->
  class_name tc <> [] /\ Forall (fun c => isword c = true) (class_name tc).
Proof.
  intros H. apply extract_loop_In in H.
  destruct H as (k & line & m & _ & Hm & ->). simpl.
  unfold Re.rmatch in Hm.
  destruct (Re.run class_pattern (Re.MState 0 (PyStr.strip line) None))
    as [|x l] eqn:E; [discriminate|]. injection Hm as ->.
  destruct (@class_group (Re.MState 0 (PyStr.strip line) None) m)
    as (w & G & Hw); [rewrite E; left; reflexivity|].
  unfold group1_text, Re.group1. rewrite G. exact Hw.
Qed.

(* ================================================================== *)
(** ** More on the report *)

Lemma collect_classes_app (fs1 fs2 : list swift_file) :
  collect_classes (fs1 ++ fs2) = collect_classes fs1 ++ collect_classes fs2.
Proof. unfold collect_classes. apply flat_map_app. Qed.

Lemma truthy_flat_map_false {A B} (g : A -> list B) (l : list A) :
  truthy (flat_map g l) = false <-> Forall (fun x => g x = []) l.
Proof.
  induction l as [|x l IH]; simpl.
  - split; [constructor | reflexivity].
  - rewrite truthy_app, orb_false_iff, IH, truthy_false. split.
    + intros [? ?]. constructor; assumption.
    + intros H. inversion H; subst. auto.
Qed.

Lemma exit_zero_iff (ws : list walked) :
  exit_status (Some ws) = 0 <->
  ws <> [] /\
  exists fs, read_all ws = Ok fs /\
             flat_map issues_of (collect_classes fs) = [].
Proof.
  rewrite exit_status_eq. destruct ws as [|w ws]; cbn [truthy].
  - split; [discriminate | intros [H _]; elim H; reflexivity].
  - destruct (read_all (w :: ws)) as [fs|x].
    + destruct (flat_map issues_of (collect_classes fs)) eqn:E;
        cbn [truthy]; split; try discriminate.
      * intros _. split; [discriminate|]. exists fs. auto.
      * reflexivity.
      * intros (_ & gs & [= <-] & H). congruence.
    + split; [discriminate | intros (_ & gs & ? & _); discriminate].
Qed.


(** X12: the walked paths are judged one by one: a run exits with 0
    exactly when the walk found a path and a run on each path alone would
    exit with 0. *)
Theorem exit_status_by_file (test_files : list walked) :
  exit_status (Some test_files) = 0 <->
  test_files <> [] /\
  Forall (fun w => exit_status (Some [w]) = 0) test_files.
Proof.
  rewrite exit_zero_iff.
  assert (All : forall ws,
             (exists fs, read_all ws = Ok fs /\
                         flat_map issues_of (collect_classes fs) = []) <->
             Forall (fun w => exit_status (Some [w]) = 0) ws).
  { induction ws as [|w ws IH].
    - split; [constructor | intros _; exists []; auto].
    - rewrite Forall_cons_iff, <- IH, exit_zero_iff.
      destruct w as [f|p e]; cbn [read_all read_text].
      + split.
        * intros (fs & R & H). destruct (read_all ws) as [gs|x];
            [|discriminate].
          injection R as <-. change (f :: gs) with ([f] ++ gs) in H.
          rewrite collect_classes_app, flat_map_app in H.
          apply app_eq_nil in H. destruct H as [H1 H2].
          split; [|exists gs; auto].
          split; [discriminate|]. exists [f]. auto.
        * intros [(_ & hs & [= <-] & H1) (gs & -> & H2)].
          exists (f :: gs). split; [reflexivity|].
          change (f :: gs) with ([f] ++ gs).
          rewrite collect_classes_app, flat_map_app, H1, H2. reflexivity.
      + split.
        * intros (fs & R & _). discriminate.
        * intros [(_ & hs & R & _) _]. discriminate. }
  rewrite All. reflexivity.
Qed.


Lemma difference_nil_iff (a b : list str) :
  difference a b = [] <-> forall x, In x a -> In x b.
Proof.
  split; [|apply difference_nil].
  intros E x Ha. destruct (PyStr.mem x b) eqn:M; [apply mem_In, M|].
  assert (H : In x (difference a b)).
  { apply difference_In. split; [exact Ha|]. rewrite <- mem_In. congruence. }
  rewrite E in H. destruct H.
Qed.

Lemma issues_of_nil (tc : TestClassInfo) :
  registry_consistent tc -> (issues_of tc = [] <-> clean tc).
Proof.
  intros [C _]. unfold issues_of, check_alltests_coverage, clean.
  destruct (has_alltests tc); cbn [negb].
  - destruct (alltests_signature tc) as [sig|]; [|elim (C eq_refl); reflexivity].
    cbv zeta.
    assert (E : (forall x, In x (test_methods tc) <-> In x (alltests_methods tc))
                <-> difference (test_methods tc) (alltests_methods tc) = [] /\
                    difference (alltests_methods tc) (test_methods tc) = []).
    { rewrite !difference_nil_iff. split.
      - intros H. split; intros x; apply H.
      - intros [H1 H2] x. split; [apply H1 | apply H2]. }
    destruct (PyStr.contains _ sig) eqn:Hc; cbn [negb];
      destruct (difference (test_methods tc) (alltests_methods tc)) eqn:D1;
      destruct (difference (alltests_methods tc) (test_methods tc)) eqn:D2;
      cbn [truthy app]; split;
      try discriminate;
      try (intros (_ & _ & H); apply E in H; destruct H; discriminate);
      try (intros (_ & (s & [= <-] & H) & _); congruence).
    intros _. split; [reflexivity|]. split; [eauto|]. apply E. auto.
  - split; [discriminate | intros [H _]; discriminate].
Qed.

(** X14: a run exits with 0 exactly when the walk found a path, every
    walked path can be read and every record handed to the checker is
    clean: it has a registry, its signature holds [static var allTests],
    and its registry names and test-method names are the same set. *)
Theorem exit_zero_iff_all_clean (test_files : list walked) :
  exit_status (Some test_files) = 0 <->
  test_files <> [] /\
  (forall file_path e, ~ In (Unreadable file_path e) test_files) /\
  Forall clean (records_of (Some test_files)).
Proof.
  rewrite exit_zero_iff, records_of_eq.
  assert (All : forall fs,
             flat_map issues_of (collect_classes fs) = [] <->
             Forall clean (collect_classes fs)).
  { intros fs. rewrite <- truthy_false, truthy_flat_map_false.
    pose proof (collect_classes_consistent fs) as C.
    induction C as [|tc tcs Htc _ IH].
    - split; constructor.
    - split; intros H; inversion H; subst; constructor;
        try (apply IH; assumption); apply (issues_of_nil Htc); assumption. }
  split.
  - intros (Hne & fs & R & H). rewrite R.
    split; [exact Hne|]. split; [|apply All, H].
    intros p e Hin. apply read_all_ok in R. subst.
    elim (readable_map _ _ _ Hin).
  - intros (Hne & Hr & H). split; [exact Hne|].
    destruct (@read_all_readable test_files Hr) as [fs R]. rewrite R in H.
    exists fs. split; [exact R | apply All, H].
Qed.

(** X15: files that can be read and hold no line matching the class
    pattern give no record; a run over one or more such files prints the
    opening lines with zero classes and the success line, and exits
    with 0. *)
Theorem no_class_no_issue (test_files : list swift_file) :
  test_files <> [] ->
  (forall f line, In f test_files -> In line (lines_of f) ->
                  Re.rmatch class_pattern (PyStr.strip line) = None) ->
  collect_classes test_files = [] /\
  exit_status (Some (List.map Readable test_files)) = 0 /\
  console (Some (List.map Readable test_files)) =
    opening_lines 0 (List.length test_files) ++ summary_lines [].
Proof.
  intros Hne Hno.
  assert (E : collect_classes test_files = []).
  { unfold collect_classes.
    apply truthy_false, truthy_flat_map_false, Forall_forall.
    intros f Hf.
    destruct (extract_test_classes f) as [|tc rest] eqn:Ex; [reflexivity|].
    assert (Hin : In tc (extract_test_classes f))
      by (rewrite Ex; left; reflexivity).
    apply extract_loop_In in Hin. destruct Hin as (k & l & m & Hk & Hm & _).
    apply nth_error_In in Hk. rewrite (Hno f l Hf Hk) in Hm. discriminate. }
  split; [exact E|].
  destruct test_files as [|f fs]; [congruence|].
  change (List.map Readable (f :: fs))
    with (Readable f :: List.map Readable fs).
  split.
  - rewrite exit_status_eq. cbn [truthy].
    change (Readable f :: List.map Readable fs)
      with (List.map Readable (f :: fs)).
    rewrite read_all_map, E. reflexivity.
  - rewrite console_some.
    change (Readable f :: List.map Readable fs)
      with (List.map Readable (f :: fs)).
    rewrite read_all_map, E, length_map. reflexivity.
Qed.

(* ================================================================== *)
(** ** Lines and trimmed text *)

Lemma split_cons (sep : char) (s : str) :
  exists h r, PyStr.split sep s = h :: r.
Proof.
  induction s as [|c s (h & r & E)]; simpl; [eauto|].
  destruct (N.eqb c sep); [eauto|]. rewrite E. eauto.
Qed.

Lemma join_split (s : str) : PyStr.join nl (PyStr.split 10%N s) = s.
Proof.
  induction s as [|c s IH]; [reflexivity|]. cbn [PyStr.split].
  destruct (split_cons 10%N s) as (h & r & E). rewrite E in *.
  destruct (N.eqb c 10) eqn:Hc.
  - apply N.eqb_eq in Hc. subst c.
    change (PyStr.join nl ([] :: h :: r))
      with ([] ++ nl ++ PyStr.join nl (h :: r)).
    rewrite IH. reflexivity.
  - destruct r as [|x r].
    + simpl in *. congruence.
    + change (PyStr.join nl ((c :: h) :: x :: r))
        with ((c :: h) ++ nl ++ PyStr.join nl (x :: r)).
      change (PyStr.join nl (h :: x :: r))
        with (h ++ nl ++ PyStr.join nl (x :: r)) in IH.
      simpl. rewrite <- IH. reflexivity.
Qed.

Lemma split_no_sep (s : str) :
  Forall (fun line => ~ In 10%N line) (PyStr.split 10%N s).
Proof.
  induction s as [|c s IH]; simpl.
  - constructor; [intros [] | constructor].
  - destruct (N.eqb c 10) eqn:Hc.
    + constructor; [intros [] | exact IH].
    + destruct (PyStr.split 10%N s) as [|h r]; [repeat constructor|].
      * intros [H|[]]. apply N.eqb_neq in Hc. congruence.
      * inversion IH; subst. constructor; [|assumption].
        intros [H|H]; [apply N.eqb_neq in Hc; congruence | auto].
Qed.

(** X16: the lines the extractor and the analyzer number are the pieces of
    the content between newlines: there is always at least one, none holds
    a newline, and joined with newlines they give the content back. *)
Theorem lines_of_content (f : swift_file) :
  PyStr.join nl (lines_of f) = content f /\
  lines_of f <> [] /\
  Forall (fun line => ~ In 10%N line) (lines_of f).
Proof.
  unfold lines_of. split; [apply join_split|]. split; [|apply split_no_sep].
  destruct (split_cons 10%N (content f)) as (h & r & ->). discriminate.
Qed.

Lemma lstrip_app (u v : str) (c : char) :
  PyStr.isspace c = false ->
  PyStr.lstrip (u ++ c :: v) = PyStr.lstrip u ++ c :: v.
Proof.
  intros Hc. induction u as [|x u IH]; simpl.
  - rewrite Hc. reflexivity.
  - destruct (PyStr.isspace x); [exact IH | reflexivity].
Qed.

Lemma rstrip_app (u v : str) (c : char) :
  PyStr.isspace c = false ->
  PyStr.rstrip (u ++ c :: v) = u ++ c :: PyStr.rstrip v.
Proof.
  intros Hc. unfold PyStr.rstrip.
  rewrite rev_app_distr. simpl. rewrite <- app_assoc. simpl.
  rewrite lstrip_app by exact Hc.
  rewrite rev_app_distr. simpl. rewrite rev_involutive, <- app_assoc.
  reflexivity.
Qed.

Lemma lstrip_spaces (ws : str) :
  Forall (fun c => PyStr.isspace c = true) ws -> PyStr.lstrip ws = [].
Proof. induction 1 as [|c ws Hc _ IH]; simpl; [|rewrite Hc]; auto. Qed.

(** The trimmed text of a line made of blanks, a word that starts and ends
    with characters that are no blanks, and anything after it, starts with
    that word. *)
Lemma strip_keeps_word (ws mid rest : str) (a c : char) :
  Forall (fun x => PyStr.isspace x = true) ws ->
  PyStr.isspace a = false -> PyStr.isspace c = false ->
  PyStr.strip (ws ++ (a :: mid ++ [c]) ++ rest) =
  (a :: mid ++ [c]) ++ PyStr.rstrip rest.
Proof.
  intros Hws Ha Hc. unfold PyStr.strip.
  replace (ws ++ (a :: mid ++ [c]) ++ rest)
    with ((ws ++ a :: mid) ++ c :: rest)
    by (rewrite <- app_assoc; simpl; rewrite <- app_assoc; reflexivity).
  rewrite rstrip_app by exact Hc.
  rewrite <- app_assoc. simpl.
  rewrite lstrip_app by exact Ha.
  rewrite lstrip_spaces by exact Hws. simpl.
  rewrite <- app_assoc. reflexivity.
Qed.

Lemma run_bol (st st' : Re.mstate) :
  In st' (Re.run Re.Bol st) -> Re.pos st = 0 /\ st' = st.
Proof.
  simpl. destruct (Nat.eqb (Re.pos st) 0) eqn:E; [|intros []].
  intros [<-|[]]. apply Nat.eqb_eq in E. auto.
Qed.

Lemma run_star (p : char -> bool) (st st' : Re.mstate) :
  In st' (Re.run (Re.Star p) st) ->
  exists w, Re.rest st = w ++ Re.rest st' /\
            Forall (fun c => p c = true) w.
Proof.
  simpl. intros H. destruct (star_spec _ _ _ _ _ H) as (w & E & _ & F & _).
  eauto.
Qed.

Lemma decl_strip_static (line : str) :
  is_alltests_decl line = true ->
  PyStr.startswith (py "static") (PyStr.strip line) = true.
Proof.
  unfold is_alltests_decl, alltests_patterns. cbn [existsb].
  rewrite orb_false_r. intros H.
  assert (S : exists ws r, Forall (fun c => sp c = true) ws /\
                           line = ws ++ py "static" ++ r).
  { apply orb_true_iff in H. destruct H as [H|H];
      match type of H with
      | matched (Re.search ?r line) = true =>
          destruct (Re.search r line) as [m|] eqn:E; [|discriminate]
      end;
      unfold Re.search in E; apply search_from_split in E;
      destruct E as (a & b & -> & E);
      apply run_seq in E; destruct E as (m1 & B & E);
      apply run_bol in B; destruct B as [P ->]; simpl in P;
      apply length_zero_iff_nil in P; subst a;
      apply run_seq in E; destruct E as (m2 & W & E);
      apply run_star in W; destruct W as (ws & W & F); simpl in W;
      apply run_seq in E; destruct E as (m3 & L & _);
      apply run_lit in L;
      exists ws, (Re.rest m3); (split; [exact F|]);
      simpl; rewrite W, L; reflexivity. }
  destruct S as (ws & r & F & ->).
  pose proof (@strip_keeps_word ws [116; 97; 116; 105]%N r 115%N 99%N F
                eq_refl eq_refl) as K.
  change (115 :: [116; 97; 116; 105] ++ [99])%N with (py "static") in K.
  rewrite K. apply startswith_self.
Qed.

(** X17: the signature the analysis of a fresh record stores is the
    trimmed text of a line of the file on which a registry pattern is
    found, and it starts with [static]. *)
Theorem signature_starts_with_static (f : swift_file) (fn cn : str)
  (ln : nat) (sig : str) :
  alltests_signature (analyze_test_class f (new_TestClassInfo fn cn ln))
    = Some sig ->
  PyStr.startswith (py "static") sig = true /\
  exists line, In line (lines_of f) /\ is_alltests_decl line = true /\
               sig = PyStr.strip line.
Proof.
  unfold analyze_test_class.
  destruct (analyze_lines_fields (lines_of f) (new_TestClassInfo fn cn ln))
    as (_ & ->).
  destruct (find_alltests_fields (lines_of f) (new_TestClassInfo fn cn ln))
    as (_ & -> & _).
  destruct (find is_alltests_decl (rev (lines_of f))) as [line|] eqn:E;
    [|discriminate].
  intros [= <-]. apply find_some in E. destruct E as [Hin Hd].
  split; [apply decl_strip_static, Hd|].
  exists line. split; [apply in_rev, Hin|]. auto.
Qed.

End Script.

(* ================================================================== *)
(** ** Two runs on the same tree *)

Section TwoRuns.

Variable unicode_alnum : char -> bool.
Variables iter1 iter2 : list str -> list str -> list str.
Hypothesis iter1_perm :
  forall a b, Permutation (iter1 a b) (difference a b).
Hypothesis iter2_perm :
  forall a b, Permutation (iter2 a b) (difference a b).

Lemma same_refl (t : str) : same_up_to_name_order t t.
Proof.
  exists t, [], []. simpl. rewrite app_nil_r. auto.
Qed.

Lemma same_prefixed (p t1 t2 : str) :
  same_up_to_name_order t1 t2 -> same_up_to_name_order (p ++ t1) (p ++ t2).
Proof.
  intros (prefix & n1 & n2 & Hp & -> & ->).
  exists (p ++ prefix), n1, n2. rewrite !app_assoc. auto.
Qed.

Lemma same_all_refl (l : list str) : Forall2 same_up_to_name_order l l.
Proof. induction l; constructor; [apply same_refl | assumption]. Qed.

Lemma iter_agree (a b : list str) : Permutation (iter1 a b) (iter2 a b).
Proof.
  eapply Permutation_trans; [apply iter1_perm|].
  apply Permutation_sym, iter2_perm.
Qed.

Lemma issues_rel (tc : TestClassInfo) :
  Forall2 same_up_to_name_order (issues_of iter1 tc) (issues_of iter2 tc).
Proof.
  unfold issues_of, check_alltests_coverage.
  destruct (has_alltests tc); cbn [negb]; [|apply same_all_refl].
  destruct (alltests_signature tc) as [sig|]; [|constructor].
  cbv zeta.
  destruct (negb (PyStr.contains _ sig));
    destruct (truthy (difference (test_methods tc) (alltests_methods tc)));
    destruct (truthy (difference (alltests_methods tc) (test_methods tc)));
    cbn [app];
    repeat (constructor;
            [first [ apply same_refl
                   | unfold missing_methods_issue, extra_methods_issue;
                     rewrite !app_assoc; eexists _, _, _;
                     split; [apply iter_agree | split; reflexivity] ] |]);
    constructor.
Qed.

Lemma Forall2_truthy {A B} (R : A -> B -> Prop) (l1 : list A) (l2 : list B) :
  Forall2 R l1 l2 ->
  truthy l1 = truthy l2 /\ List.length l1 = List.length l2.
Proof.
  intros H. split; [destruct H; reflexivity | eapply Forall2_length, H].
Qed.

Lemma block_rel (tc : TestClassInfo) :
  Forall2 same_up_to_name_order (report_block iter1 tc) (report_block iter2 tc).
Proof.
  unfold report_block. pose proof (issues_rel tc) as H.
  destruct (Forall2_truthy H) as [-> _].
  destruct (truthy (issues_of iter2 tc)); [|constructor].
  constructor; [apply same_refl|].
  induction H; cbn [List.map]; [constructor|].
  constructor; [apply same_prefixed|]; assumption.
Qed.

Lemma blocks_rel (tcs : list TestClassInfo) :
  Forall2 same_up_to_name_order
    (flat_map (report_block iter1) tcs) (flat_map (report_block iter2) tcs) /\
  Forall2 same_up_to_name_order
    (flat_map (issues_of iter1) tcs) (flat_map (issues_of iter2) tcs).
Proof.
  induction tcs as [|tc tcs [IH1 IH2]]; simpl; [split; constructor|].
  split; apply Forall2_app; auto using block_rel, issues_rel.
Qed.

Lemma single_named_issues (tc : TestClassInfo) :
  single_named tc -> issues_of iter1 tc = issues_of iter2 tc.
Proof.
  intros [Hm He].
  assert (P : forall a b, List.length (difference a b) <= 1 ->
                          iter1 a b = iter2 a b).
  { intros a b Hl. pose proof (iter1_perm a b) as P1.
    pose proof (iter2_perm a b) as P2.
    destruct (difference a b) as [|x [|y r]].
    - apply Permutation_sym, Permutation_nil in P1.
      apply Permutation_sym, Permutation_nil in P2. congruence.
    - apply Permutation_sym, Permutation_length_1_inv in P1.
      apply Permutation_sym, Permutation_length_1_inv in P2. congruence.
    - simpl in Hl. lia. }
  unfold issues_of, check_alltests_coverage.
  rewrite (P _ _ Hm), (P _ _ He). reflexivity.
Qed.

Lemma single_named_blocks (tcs : list TestClassInfo) :
  Forall single_named tcs ->
  flat_map (report_block iter1) tcs = flat_map (report_block iter2) tcs /\
  flat_map (issues_of iter1) tcs = flat_map (issues_of iter2) tcs.
Proof.
  induction 1 as [|tc tcs Htc _ [IH1 IH2]]; cbn [flat_map];
    [split; reflexivity|].
  rewrite IH1, IH2. unfold report_block at 1.
  rewrite (single_named_issues Htc). split; reflexivity.
Qed.

(** C8, as amended: two runs on the same tree exit with the same status
    and print texts that differ at most in the order of the names that end
    a "missing" or "extra" issue, an order taken from the iteration of a
    set and so left to the run; when no record has two or more missing
    names or two or more extra names, the two consoles are identical.  A
    run that meets a path it cannot read ends the same way both times. *)
Theorem rerun_same_up_to_set_order (d : test_dir) :
  exit_status unicode_alnum iter1 d = exit_status unicode_alnum iter2 d /\
  Forall2 same_up_to_name_order
    (console unicode_alnum iter1 d) (console unicode_alnum iter2 d) /\
  (Forall single_named (records_of unicode_alnum d) ->
   console unicode_alnum iter1 d = console unicode_alnum iter2 d).
Proof.
  destruct d as [[|w ws]|].
  - split; [reflexivity|]. split; [apply same_all_refl | reflexivity].
  - rewrite records_of_eq, !exit_status_eq, !console_some.
    destruct (read_all (w :: ws)) as [fs|x].
    + destruct (blocks_rel (collect_classes unicode_alnum fs)) as [Hb Hi].
      destruct (Forall2_truthy Hi) as [Ht Hl].
      split; [|split].
      * cbn [truthy]. rewrite Ht. reflexivity.
      * unfold summary_lines. rewrite <- Ht, <- Hl.
        destruct (truthy (flat_map (issues_of iter1) _));
          repeat apply Forall2_app;
          first [exact Hb | apply same_all_refl].
      * intros Hs. apply single_named_blocks in Hs. destruct Hs as [Eb Ei].
        rewrite Eb, Ei. reflexivity.
    + split; [reflexivity|]. split; [apply same_all_refl | reflexivity].
  - split; [reflexivity|]. split; [apply same_all_refl | reflexivity].
Qed.

End TwoRuns.

(* ================================================================== *)
(** ** The properties on the sample files *)

Lemma insertion_order_perm (a b : list str) :
  Permutation (insertion_order a b) (difference a b).
Proof. apply Permutation_refl. Qed.

Lemma reverse_order_perm (a b : list str) :
  Permutation (reverse_order a b) (difference a b).
Proof. apply Permutation_sym, Permutation_rev. Qed.

(** The sample files are ASCII: whatever the table above the ASCII range,
    the records collected from them are those of [ascii_only]. *)
Lemma samples_any_table (unicode_alnum : char -> bool) :
  Forall (fun f => collect_classes unicode_alnum [f] =
                   collect_classes ascii_only [f])
    [foo_one_line; foo_by_lines; foo_registry_on_one_line; let_registry;
     two_registries; empty_registry] /\
  analyze_lines unicode_alnum one_line_registries
    (new_TestClassInfo (py "FooTests.swift") (py "FooTests") 1) =
  analyze_lines ascii_only one_line_registries
    (new_TestClassInfo (py "FooTests.swift") (py "FooTests") 1).
Proof.
  split; [|vm_compute; reflexivity].
  repeat (apply Forall_cons; [vm_compute; reflexivity|]). apply Forall_nil.
Qed.

(** The patterns on lines as they occur in the test sources. *)
Example class_pattern_final :
  option_map group1_text
    (Re.rmatch (class_pattern ascii_only)
       (PyStr.strip (py "  final class DeflateTests: XCTestCase {")))
  = Some (py "DeflateTests").
Proof. vm_compute; reflexivity. Qed.

Example class_pattern_indirect :
  Re.rmatch (class_pattern ascii_only)
    (py "class DeflateTests: BaseTests, XCTestCase {") = None.
Proof. vm_compute; reflexivity. Qed.

Example test_method_async_throws :
  option_map group1_text
    (Re.search (test_method_pattern ascii_only)
       (py "    func testRoundTrip() async throws {"))
  = Some (py "testRoundTrip").
Proof. vm_compute; reflexivity. Qed.

Example test_method_not_at_line_start :
  Re.search (test_method_pattern ascii_only)
    (py "class FooTests : XCTestCase { func testA(){}") = None.
Proof. vm_compute; reflexivity. Qed.

Example registry_with_type :
  is_alltests_decl
    (py "    static let allTests: [(String, (FooTests) -> () throws -> Void)] = [")
  = true.
Proof. vm_compute; reflexivity. Qed.

Example quoted_name_two_literals :
  quoted_name (py "(" ++ quote (py "testA") ++ py ", testA), (" ++
               quote (py "testB") ++ py ", testB)")
  = [py "testA"].
Proof. vm_compute; reflexivity. Qed.

(** A run that meets a path it cannot read: the exception leaves [main],
    the exit status is 1, only the banner was printed and no issue was
    emitted, even for the file read before it. *)
Example undecodable_file_run :
  fst (main ascii_only insertion_order undecodable_tree []) =
    Raise (ReadError UnicodeDecodeError) /\
  exit_status ascii_only insertion_order undecodable_tree = 1 /\
  console ascii_only insertion_order undecodable_tree =
    [ magnifier ++ py " Checking allTests properties in test files..." ] /\
  all_issues_of ascii_only insertion_order undecodable_tree =
    Raise (ReadError UnicodeDecodeError) /\
  records_of ascii_only undecodable_tree = [].
Proof.
  split; [vm_compute; reflexivity|]. split; [vm_compute; reflexivity|].
  split; [vm_compute; reflexivity|]. split; vm_compute; reflexivity.
Qed.

Example directory_named_swift_run :
  fst (main ascii_only insertion_order directory_tree []) =
    Raise (ReadError IsADirectoryError) /\
  exit_status ascii_only insertion_order directory_tree = 1 /\
  console ascii_only insertion_order directory_tree =
    [ magnifier ++ py " Checking allTests properties in test files..." ] /\
  all_issues_of ascii_only insertion_order directory_tree =
    Raise (ReadError IsADirectoryError).
Proof.
  split; [vm_compute; reflexivity|]. split; [vm_compute; reflexivity|].
  split; vm_compute; reflexivity.
Qed.

(** C1, as stated, fails: in a run whose only issue is the advisory one
    about the [let] registry no blocking issue is emitted, and yet the exit
    status is not zero. *)
Lemma advisory_only_exit_nonzero :
  ~ (exit_status ascii_only insertion_order (Some [let_registry]) <> 0 <->
     exists (issues : list str) (issue : str),
       all_issues_of ascii_only insertion_order (Some [let_registry]) =
         Ok issues /\
       In issue issues /\ is_blocking issue = true).
Proof.
  intros [H _]. destruct H as (issues & issue & E & I & B).
  - vm_compute. discriminate.
  - vm_compute in E. injection E as <-. destruct I as [<-|[]].
    vm_compute in B. discriminate B.
Qed.

(** C2, as stated, fails: on the one-line file no test method and no
    registry method is found; and with one declaration per line but the
    registry still on a single line, no registry method is found. *)
Lemma foo_one_line_not_as_claimed :
  ~ (exists tc : TestClassInfo,
       collect_classes ascii_only [foo_one_line] = [tc] /\
       test_methods tc = [py "testA"; py "testB"] /\
       alltests_methods tc = [py "testA"] /\
       all_issues_of ascii_only insertion_order (Some [foo_one_line]) =
         Ok [missing_methods_issue [py "testB"]] /\
       exit_status ascii_only insertion_order (Some [foo_one_line]) = 1) /\
  ~ (exists tc : TestClassInfo,
       collect_classes ascii_only [foo_registry_on_one_line] = [tc] /\
       test_methods tc = [py "testA"; py "testB"] /\
       alltests_methods tc = [py "testA"] /\
       all_issues_of ascii_only insertion_order
         (Some [foo_registry_on_one_line]) =
         Ok [missing_methods_issue [py "testB"]] /\
       exit_status ascii_only insertion_order
         (Some [foo_registry_on_one_line]) = 1).
Proof.
  split.
  - intros (tc & E & T & _). vm_compute in E. injection E as <-.
    discriminate T.
  - intros (tc & E & _ & A & _). vm_compute in E. injection E as <-.
    discriminate A.
Qed.

Lemma foo_tests_scenario_witness :
  (forall a b, Permutation (insertion_order a b) (difference a b)) /\
  all_issues_of ascii_only insertion_order (Some [foo_one_line]) =
    Ok [missing_alltests_issue] /\
  all_issues_of ascii_only insertion_order (Some [foo_by_lines]) =
    Ok [missing_methods_issue [py "testB"]].
Proof.
  split; [exact insertion_order_perm|].
  pose proof (@foo_tests_scenario ascii_only insertion_order
                insertion_order_perm) as H.
  cbv zeta in H.
  destruct H as [(_ & _ & _ & H1 & _) (_ & _ & _ & _ & _ & H2 & _)].
  split; [exact H1 | exact H2].
Defined.

(** C3, as stated, fails: with two registries in the file the signature is
    the trimmed text of the second, not of the first. *)
Lemma signature_not_first_match :
  existsb is_alltests_decl (lines_of two_registries) = true /\
  alltests_signature
    (analyze_test_class ascii_only two_registries
       (new_TestClassInfo (path two_registries) (py "ATests") 1))
  <> option_map PyStr.strip
       (find is_alltests_decl (lines_of two_registries)).
Proof. split; [vm_compute; reflexivity | vm_compute; discriminate]. Qed.

Lemma signature_is_last_match_witness :
  existsb is_alltests_decl (lines_of two_registries) = true /\
  has_alltests
    (analyze_test_class ascii_only two_registries
       (new_TestClassInfo (path two_registries) (py "ATests") 1)) = true /\
  alltests_signature
    (analyze_test_class ascii_only two_registries
       (new_TestClassInfo (path two_registries) (py "ATests") 1)) =
  option_map PyStr.strip
    (find is_alltests_decl (rev (lines_of two_registries))).
Proof.
  split; [vm_compute; reflexivity|].
  apply (@signature_is_last_match ascii_only two_registries).
  vm_compute; reflexivity.
Defined.

(** C4, as stated, fails: the directory exists and holds no test-source
    file, no issue accumulates, and the exit status is 1, not 0. *)
Lemma empty_dir_exit_one :
  ~ (all_issues_of ascii_only insertion_order (Some []) = Ok [] ->
     exit_status ascii_only insertion_order (Some []) = 0).
Proof. intros H. specialize (H eq_refl). discriminate H. Qed.

Lemma no_registry_single_issue_witness :
  has_alltests (new_TestClassInfo (py "FooTests.swift") (py "FooTests") 1)
    = false /\
  check_alltests_coverage insertion_order
    (new_TestClassInfo (py "FooTests.swift") (py "FooTests") 1)
    = Ok [missing_alltests_issue] /\
  is_blocking missing_alltests_issue = true.
Proof.
  split; [reflexivity|].
  apply (@no_registry_single_issue insertion_order). reflexivity.
Defined.

Lemma equal_sets_no_blocking_witness :
  registry_consistent swapped_registry /\
  has_alltests swapped_registry = true /\
  (forall x, In x (alltests_methods swapped_registry) <->
             In x (test_methods swapped_registry)) /\
  exists issues : list str,
    check_alltests_coverage insertion_order swapped_registry = Ok issues /\
    Forall (fun issue => is_blocking issue = false) issues.
Proof.
  assert (C : registry_consistent swapped_registry)
    by (split; [discriminate | reflexivity]).
  assert (S : forall x, In x (alltests_methods swapped_registry) <->
                        In x (test_methods swapped_registry))
    by (intros x; simpl; tauto).
  split; [exact C|]. split; [reflexivity|]. split; [exact S|].
  exact (@equal_sets_no_blocking insertion_order swapped_registry C eq_refl S).
Defined.

(** C7, as stated, fails: the first line met in the mode holds a quoted
    literal and ends with the closing bracket, yet it gives no name and
    does not stop the scan; the name comes from the line after it. *)
Lemma old_registry_line_not_scanned :
  alltests_methods
    (scan_alltests true inside_with_old_registry
       (new_TestClassInfo (py "FooTests.swift") (py "FooTests") 1))
    = [py "testA"] /\
  alltests_methods
    (scan_alltests true inside_with_old_registry
       (new_TestClassInfo (py "FooTests.swift") (py "FooTests") 1))
    <> spec_inside inside_with_old_registry.
Proof. split; [vm_compute; reflexivity | vm_compute; discriminate]. Qed.

Lemma inside_registry_scan_witness :
  Forall (fun line => closes_alltests line = false) old_registry_body /\
  closes_alltests closing_line = true /\
  alltests_methods
    (scan_alltests true (old_registry_body ++ closing_line :: later_lines)
       (new_TestClassInfo (py "FooTests.swift") (py "FooTests") 1)) =
  flat_map contribution (old_registry_body ++ [closing_line]).
Proof.
  assert (B : Forall (fun line => closes_alltests line = false)
                old_registry_body)
    by (repeat (apply Forall_cons; [vm_compute; reflexivity|]);
        apply Forall_nil).
  assert (C : closes_alltests closing_line = true) by (vm_compute; reflexivity).
  split; [exact B|]. split; [exact C|].
  exact (proj1 (@inside_registry_scan old_registry_body closing_line
                  later_lines
                  (new_TestClassInfo (py "FooTests.swift") (py "FooTests") 1)
                  B C)).
Defined.

(** C8, as stated, fails: two runs that iterate the set of missing names
    in different orders print different texts. *)
Lemma set_order_changes_console :
  console ascii_only insertion_order (Some [empty_registry]) <>
  console ascii_only reverse_order (Some [empty_registry]).
Proof.
  intros H. apply (f_equal (fun out => nth 3 out [])) in H.
  vm_compute in H. discriminate H.
Qed.

Lemma rerun_same_up_to_set_order_witness :
  (forall a b, Permutation (insertion_order a b) (difference a b)) /\
  (forall a b, Permutation (reverse_order a b) (difference a b)) /\
  exit_status ascii_only insertion_order (Some [empty_registry]) =
  exit_status ascii_only reverse_order (Some [empty_registry]) /\
  Forall2 same_up_to_name_order
    (console ascii_only insertion_order (Some [empty_registry]))
    (console ascii_only reverse_order (Some [empty_registry])).
Proof.
  split; [exact insertion_order_perm|]. split; [exact reverse_order_perm|].
  destruct (@rerun_same_up_to_set_order ascii_only insertion_order
              reverse_order insertion_order_perm reverse_order_perm
              (Some [empty_registry])) as (E & R & _).
  split; [exact E | exact R].
Defined.

(** C10, as stated, fails: the line after the single-line registry holds a
    quoted literal and ends with the closing bracket, yet it is passed over
    too and the scan runs on to the end of the file. *)
Lemma second_registry_line_skipped :
  alltests_methods
    (analyze_lines ascii_only one_line_registries
       (new_TestClassInfo (py "FooTests.swift") (py "FooTests") 1))
    = [py "zlib"] /\
  alltests_methods
    (analyze_lines ascii_only one_line_registries
       (new_TestClassInfo (py "FooTests.swift") (py "FooTests") 1))
    <> spec_inside after_single_line.
Proof. split; [vm_compute; reflexivity | vm_compute; discriminate]. Qed.

Lemma declaration_line_skipped_witness :
  Forall (fun line => opens_alltests line = false) registry_prelude /\
  opens_alltests single_line_registry = true /\
  existsb is_alltests_decl
    (registry_prelude ++ single_line_registry :: after_single_line) = true /\
  alltests_methods
    (analyze_lines ascii_only
       (registry_prelude ++ single_line_registry :: after_single_line)
       (new_TestClassInfo (py "FooTests.swift") (py "FooTests") 1)) =
  flat_map contribution (upto_closing after_single_line).
Proof.
  assert (P : Forall (fun line => opens_alltests line = false)
                registry_prelude)
    by (repeat (apply Forall_cons; [vm_compute; reflexivity|]);
        apply Forall_nil).
  assert (D : opens_alltests single_line_registry = true)
    by (vm_compute; reflexivity).
  assert (E : existsb is_alltests_decl
                (registry_prelude ++ single_line_registry :: after_single_line)
              = true)
    by (vm_compute; reflexivity).
  split; [exact P|]. split; [exact D|]. split; [exact E|].
  exact (@declaration_line_skipped ascii_only registry_prelude
           single_line_registry after_single_line
           (new_TestClassInfo (py "FooTests.swift") (py "FooTests") 1)
           P D E).
Defined.

(* ================================================================== *)
(** ** The further properties on the sample files *)

Lemma test_method_names_shape_witness :
  In (py "testA")
     (test_methods
        (analyze_test_class ascii_only foo_by_lines
           (new_TestClassInfo (path foo_by_lines) (py "FooTests") 1))) /\
  exists w, py "testA" = py "test" ++ w /\ w <> [] /\
            Forall (fun c => isword ascii_only c = true) w.
Proof.
  assert (H : In (py "testA")
                (test_methods
                   (analyze_test_class ascii_only foo_by_lines
                      (new_TestClassInfo (path foo_by_lines)
                         (py "FooTests") 1))))
    by (vm_compute; left; reflexivity).
  split; [exact H|].
  exact (@test_method_names_shape ascii_only foo_by_lines
           (path foo_by_lines) (py "FooTests") 1 (py "testA") H).
Defined.

Lemma registry_names_shape_witness :
  In (py "testA")
     (alltests_methods
        (analyze_test_class ascii_only foo_by_lines
           (new_TestClassInfo (path foo_by_lines) (py "FooTests") 1))) /\
  py "testA" <> [] /\ Forall (fun c => c <> dquote) (py "testA").
Proof.
  assert (H : In (py "testA")
                (alltests_methods
                   (analyze_test_class ascii_only foo_by_lines
                      (new_TestClassInfo (path foo_by_lines)
                         (py "FooTests") 1))))
    by (vm_compute; left; reflexivity).
  split; [exact H|].
  exact (proj2 (@registry_names_shape ascii_only foo_by_lines
                  (path foo_by_lines) (py "FooTests") 1 (py "testA") H)).
Defined.

Lemma registry_line_with_equals_opens_witness :
  is_alltests_decl (py "    static var allTests = [") = true /\
  PyStr.contains (py "=") (py "    static var allTests = [") = true /\
  opens_alltests (py "    static var allTests = [") = true.
Proof.
  assert (D : is_alltests_decl (py "    static var allTests = [") = true)
    by (vm_compute; reflexivity).
  assert (E : PyStr.contains (py "=") (py "    static var allTests = [")
              = true)
    by (vm_compute; reflexivity).
  split; [exact D|]. split; [exact E|].
  exact (proj2 (proj2 (@registry_line_with_equals_opens
                         (py "    static var allTests = [") D)) E).
Defined.

Lemma issue_names_exact_witness :
  (forall a b, Permutation (insertion_order a b) (difference a b)) /\
  has_alltests
    (analyze_test_class ascii_only empty_registry
       (new_TestClassInfo (path empty_registry) (py "FooTests") 1)) = true /\
  alltests_signature
    (analyze_test_class ascii_only empty_registry
       (new_TestClassInfo (path empty_registry) (py "FooTests") 1))
    = Some (py "static var allTests = [") /\
  exists issues : list str,
    check_alltests_coverage insertion_order
      (analyze_test_class ascii_only empty_registry
         (new_TestClassInfo (path empty_registry) (py "FooTests") 1))
      = Ok issues /\
    filter is_blocking issues =
      [missing_methods_issue [py "testA"; py "testB"]].
Proof.
  set (r := analyze_test_class ascii_only empty_registry
              (new_TestClassInfo (path empty_registry) (py "FooTests") 1)).
  assert (Hh : has_alltests r = true) by (vm_compute; reflexivity).
  assert (Hs : alltests_signature r = Some (py "static var allTests = ["))
    by (vm_compute; reflexivity).
  split; [exact insertion_order_perm|]. split; [exact Hh|].
  split; [exact Hs|].
  destruct (@issue_names_exact insertion_order insertion_order_perm r
              (py "static var allTests = [") Hh Hs)
    as (_ & _ & issues & E & B & _).
  exists issues. split; [exact E|]. rewrite B. vm_compute. reflexivity.
Defined.

Lemma registry_never_opened_witness :
  (forall a b, Permutation (insertion_order a b) (difference a b)) /\
  existsb is_alltests_decl (lines_of computed_registry) = true /\
  Forall (fun line => opens_alltests line = false)
         (lines_of computed_registry) /\
  has_alltests
    (analyze_test_class ascii_only computed_registry
       (new_TestClassInfo (path computed_registry) (py "GzipTests") 1))
    = true /\
  alltests_methods
    (analyze_test_class ascii_only computed_registry
       (new_TestClassInfo (path computed_registry) (py "GzipTests") 1))
    = [].
Proof.
  assert (D : existsb is_alltests_decl (lines_of computed_registry) = true)
    by (vm_compute; reflexivity).
  assert (O : Forall (fun line => opens_alltests line = false)
                (lines_of computed_registry)).
  { change (lines_of computed_registry)
      with (PyStr.split 10%N (content computed_registry)).
    vm_compute PyStr.split.
    repeat (apply Forall_cons; [vm_compute; reflexivity|]).
    apply Forall_nil. }
  split; [exact insertion_order_perm|]. split; [exact D|]. split; [exact O|].
  destruct (@registry_never_opened ascii_only insertion_order
              insertion_order_perm computed_registry
              (path computed_registry) (py "GzipTests") 1 D O)
    as (H1 & H2 & _).
  split; [exact H1 | exact H2].
Defined.


Lemma class_name_shape_witness :
  In (new_TestClassInfo (path foo_one_line) (py "FooTests") 1)
     (extract_test_classes ascii_only foo_one_line) /\
  py "FooTests" <> [] /\
  Forall (fun c => isword ascii_only c = true) (py "FooTests").
Proof.
  assert (H : In (new_TestClassInfo (path foo_one_line) (py "FooTests") 1)
                (extract_test_classes ascii_only foo_one_line))
    by (vm_compute; left; reflexivity).
  split; [exact H|].
  exact (@class_name_shape ascii_only foo_one_line _ H).
Defined.


Lemma no_class_no_issue_witness :
  [helpers_file] <> [] /\
  (forall f line, In f [helpers_file] -> In line (lines_of f) ->
                  Re.rmatch (class_pattern ascii_only) (PyStr.strip line)
                  = None) /\
  collect_classes ascii_only [helpers_file] = [] /\
  exit_status ascii_only insertion_order (Some [helpers_file]) = 0.
Proof.
  assert (N : [helpers_file] <> []) by discriminate.
  assert (H : forall f line, In f [helpers_file] -> In line (lines_of f) ->
                Re.rmatch (class_pattern ascii_only) (PyStr.strip line)
                = None).
  { intros f line [<-|[]] Hl.
    change (lines_of helpers_file)
      with (PyStr.split 10%N (content helpers_file)) in Hl.
    vm_compute PyStr.split in Hl.
    repeat (destruct Hl as [<-|Hl]; [vm_compute; reflexivity|]).
    destruct Hl. }
  split; [exact N|]. split; [exact H|].
  destruct (@no_class_no_issue ascii_only insertion_order [helpers_file] N H)
    as (E & X & _).
  split; [exact E | exact X].
Defined.

Lemma signature_starts_with_static_witness :
  alltests_signature
    (analyze_test_class ascii_only two_registries
       (new_TestClassInfo (path two_registries) (py "ATests") 1))
    = Some (py "static let allTests = [") /\
  PyStr.startswith (py "static") (py "static let allTests = [") = true.
Proof.
  assert (S : alltests_signature
                (analyze_test_class ascii_only two_registries
                   (new_TestClassInfo (path two_registries) (py "ATests") 1))
              = Some (py "static let allTests = ["))
    by (vm_compute; reflexivity).
  split; [exact S|].
  exact (proj1 (@signature_starts_with_static ascii_only two_registries
                  (path two_registries) (py "ATests") 1
                  (py "static let allTests = [") S)).
Defined.
